(** * TripIt MCP server: the API-access layer and the JSON-RPC dispatcher

    A shallow embedding of

    - [src/lib/errors.ts]       (error classes, [handleTripItError]),
    - [src/mcp/tools/*.ts]      (the tool handlers and [handleToolCall]),
    - [src/mcp/server.ts]       ([handleMCPRequest]),
    - [src/tripit/client.ts]    ([TripItClient]: throttle, retry loop, object creation),

    followed by the properties of the retry policy, of the error boundary and
    of the dispatcher.

    Conventions.  Promises are modelled by their outcome: an [async] function
    that resolves to [v] is [inr v], one that rejects with [e] is [inl e], so
    [await] inside [try]/[catch] is a bind of the exception monad [Exc].
    JavaScript numbers are restricted to integers ([Z]) and [NaN]: the code
    only computes with status codes, attempt numbers, millisecond delays and
    the seconds of a parsed date.
    A string is the sequence of the UTF-8 bytes of the JavaScript string; the
    tool names, object types and method names of the program are ASCII.  What
    JavaScript does per UTF-16 code unit ([charAt], [toUpperCase], spreading a
    string) is computed here for ASCII and left to the [Runtime] beyond it. *)

From Stdlib Require Import ZArith List String Ascii Bool Lia DecimalString Sorted.
Import ListNotations.

#[local] Open Scope string_scope.
#[local] Open Scope Z_scope.

(** ** JavaScript values *)

#[local] Set Warnings "-register-all".

(** The values that cross the program's interfaces: what [JSON.parse] yields,
    plus [undefined] (an absent property or argument) and [NaN] (the time of a
    text that is no date).  An object is the list of its own properties: no
    value has a function among them. *)
Inductive Value : Type :=
| VUndefined
| VNull
| VBool (b : bool)
| VNum (n : Z)
| VNaN
| VStr (s : string)
| VArr (items : list Value)
| VObj (props : list (string * Value)).

(** [!!v] *)
Definition truthy (v : Value) : bool :=
  match v with
  | VUndefined | VNull | VNaN => false
  | VBool b => b
  | VNum n => negb (n =? 0)
  | VStr s => negb (s =? "")%string
  | VArr _ | VObj _ => true
  end.

(** [v === undefined || v === null] *)
Definition nullish (v : Value) : bool :=
  match v with
  | VUndefined | VNull => true
  | _ => false
  end.

(** [a ?? b] *)
Definition coalesce (a b : Value) : Value := if nullish a then b else a.

(** [a || b] *)
Definition orElse (a b : Value) : Value := if truthy a then a else b.

(** Own-property lookup in the property list of an object literal. *)
Fixpoint lookup (k : string) (props : list (string * Value)) : option Value :=
  match props with
  | [] => None
  | (k', v) :: rest => if (k =? k')%string then Some v else lookup k rest
  end.

(** [obj[k] = v]: an existing property keeps its place, a new one goes last. *)
Fixpoint assign (k : string) (v : Value) (props : list (string * Value))
  : list (string * Value) :=
  match props with
  | [] => [(k, v)]
  | (k', v') :: rest =>
      if (k =? k')%string then (k, v) :: rest else (k', v') :: assign k v rest
  end.

(** The rest of an object once [k] is destructured away: [const {k, ...rest} = obj]. *)
Definition without (k : string) (props : list (string * Value))
  : list (string * Value) :=
  filter (fun kv => negb (k =? fst kv)%string) props.

(** Decimal rendering of an integer, as a template literal does it. *)
Definition numberToString (n : Z) : string := NilZero.string_of_int (Z.to_int n).

(** [sub] occurs in [s]: what [expect(s).toContain(sub)] tests. *)
Definition Contains (s sub : string) : Prop :=
  exists before after, s = before ++ sub ++ after.

(** ** Errors: src/lib/errors.ts *)

(** The class of a [TripItError] instance: what [instanceof] and [name] see. *)
Inductive ErrorClass : Type :=
| TripItErrorClass
| AuthenticationErrorClass
| NotFoundErrorClass
| ProRequiredErrorClass.

Record TripItError : Type := mkTripItError {
  errorClass : ErrorClass;
  statusCode : Z;
  details : string
}.

(** [super(`TripIt API error (${statusCode}): ${details}`)] *)
Definition message (e : TripItError) : string :=
  "TripIt API error (" ++ numberToString (statusCode e) ++ "): " ++ details e.

Definition newTripItError (statusCode : Z) (details : string) : TripItError :=
  mkTripItError TripItErrorClass statusCode details.

Definition newAuthenticationError (details : string) : TripItError :=
  mkTripItError AuthenticationErrorClass 401 details.

(** [new AuthenticationError()]: the default parameter. *)
Definition defaultAuthenticationError : TripItError :=
  newAuthenticationError "Authentication failed".

Definition newNotFoundError (resource id : string) : TripItError :=
  mkTripItError NotFoundErrorClass 404 (resource ++ " with ID " ++ id ++ " not found").

Definition newProRequiredError (feature : string) : TripItError :=
  mkTripItError ProRequiredErrorClass 403 (feature ++ " requires TripIt Pro subscription").

(** What a [throw] (or a rejected promise) can carry: an instance of
    [TripItError] or of one of its subclasses, another [Error] (a [TypeError]
    of [fetch], a [SyntaxError] of [response.json()], ...), or a value that is
    no [Error] at all. *)
Inductive Thrown : Type :=
| ThrowTripIt (e : TripItError)
| ThrowError (name message : string)
| ThrowValue (v : Value).

(** [error instanceof TripItError] *)
Definition instanceofTripItError (error : Thrown) : bool :=
  match error with
  | ThrowTripIt _ => true
  | _ => false
  end.

(** [error instanceof AuthenticationError] *)
Definition instanceofAuthenticationError (error : Thrown) : bool :=
  match error with
  | ThrowTripIt e =>
      match errorClass e with AuthenticationErrorClass => true | _ => false end
  | _ => false
  end.

(** [error instanceof NotFoundError] *)
Definition instanceofNotFoundError (error : Thrown) : bool :=
  match error with
  | ThrowTripIt e =>
      match errorClass e with NotFoundErrorClass => true | _ => false end
  | _ => false
  end.

(** The exception monad: [inl] is a throw, [inr] a normal completion. *)
Definition Exc (A : Type) : Type := (Thrown + A)%type.

Definition ret {A : Type} (a : A) : Exc A := inr a.

Definition throw {A : Type} (e : Thrown) : Exc A := inl e.

Definition bind {A B : Type} (c : Exc A) (k : A -> Exc B) : Exc B :=
  match c with
  | inl e => inl e
  | inr a => k a
  end.

Notation "x <- c ;; k" := (bind c (fun x => k))
  (at level 61, c at next level, right associativity).

(** [try { body } catch (error) { return handler(error) }] *)
Definition tryCatch {A : Type} (body : Exc A) (handler : Thrown -> A) : A :=
  match body with
  | inl error => handler error
  | inr a => a
  end.

(** [v.k]: reading a property of [undefined] or [null] is a [TypeError];
    a primitive or an array has none of the data properties read here. *)
Definition getProp (v : Value) (k : string) : Exc Value :=
  match v with
  | VUndefined =>
      throw (ThrowError "TypeError"
               ("Cannot read properties of undefined (reading '" ++ k ++ "')"))
  | VNull =>
      throw (ThrowError "TypeError"
               ("Cannot read properties of null (reading '" ++ k ++ "')"))
  | VObj props => ret (match lookup k props with Some x => x | None => VUndefined end)
  | _ => ret VUndefined
  end.

(** [v?.k] *)
Definition getPropOpt (v : Value) (k : string) : Value :=
  match v with
  | VObj props => match lookup k props with Some x => x | None => VUndefined end
  | _ => VUndefined
  end.

(** The result of a tool: [{content: [{type: 'text', text}], isError?}].
    Every content block of the program has type ['text'], so a block is its
    text; [isError = None] is an absent field. *)
Record ToolResult : Type := mkToolResult {
  content : list string;
  isError : option bool
}.

(** [{content: [{type: 'text', text}]}] *)
Definition textResult (text : string) : ToolResult := mkToolResult [text] None.

(** [{content: [{type: 'text', text}], isError: true}] *)
Definition errorResult (text : string) : ToolResult := mkToolResult [text] (Some true).

Definition handleTripItError (error : Thrown) : ToolResult :=
  match error with
  | ThrowTripIt e =>
      if statusCode e =? 401 then
        errorResult "TripIt authentication expired. Please re-authorize at /oauth/start"
      else if statusCode e =? 404 then errorResult (message e)
      else if statusCode e =? 403 then errorResult (message e)
      else errorResult ("TripIt error: " ++ details e)
  | _ => errorResult "An unexpected error occurred. Please try again."
  end.

(** ** The JavaScript runtime

    Built-ins the program calls and this development leaves uninterpreted. *)
Record Runtime : Type := mkRuntime {
  (** [JSON.stringify(v)] *)
  stringify : Value -> string;
  (** [JSON.stringify(v, null, 2)] *)
  stringifyIndented : Value -> string;
  (** [String(v)], also the coercion of a template literal and of a property
      key, for a value that has a text (see [convertible]) *)
  toString : Value -> string;
  (** [encodeURIComponent(s)] *)
  encodeURIComponent : string -> string;
  (** [Math.floor(Date.parse(s) / 1000)]; [None] is [NaN], the time of a text
      that is no date *)
  parseEpochSeconds : string -> option Z;
  (** The text of a member inherited from [Object.prototype] when it is used
      as a property key, e.g. of [Object.prototype.constructor]. *)
  inheritedToString : string -> string;
  (** The one-character strings [s[0]], [s[1]], ... of a string: its UTF-16
      code units. *)
  codeUnits : string -> list string;
  (** [s.charAt(0).toUpperCase() + s.slice(1)] for a string whose first
      character is outside ASCII: the Unicode upper case of its first code
      unit, followed by the rest. *)
  upperFirstUnicode : string -> string
}.

(** Whether [v] has a text.  The conversion of an object to a string calls its
    [toString], then its [valueOf], and throws a [TypeError] when neither
    yields a primitive.  An own property [toString] of a parsed object is
    never a function and hides [Object.prototype.toString], and the [valueOf]
    it has or inherits yields no primitive either: such an object has no
    text.  The text of an array joins the texts of its elements. *)
Fixpoint convertible (v : Value) : bool :=
  match v with
  | VArr items => forallb convertible items
  | VObj props =>
      match lookup "toString" props with
      | Some _ => false
      | None => true
      end
  | _ => true
  end.

(** What the failed conversion throws. *)
Definition cannotConvert : Thrown :=
  ThrowError "TypeError" "Cannot convert object to primitive value".

(** [String(v)], a template literal [`${v}`], the argument of [Date.parse],
    and the property key of [obj[v]] and [v in obj]. *)
Definition stringOf (rt : Runtime) (v : Value) : Exc string :=
  if convertible v then ret (toString rt v) else throw cannotConvert.

(** [`${a}${sep}${b}`] *)
Definition joined (rt : Runtime) (a : Value) (sep : string) (b : Value) : Exc string :=
  x <- stringOf rt a ;;
  y <- stringOf rt b ;;
  ret (x ++ sep ++ y).

(** [Math.floor(Date.parse(v) / 1000)] *)
Definition epochSeconds (rt : Runtime) (v : Value) : Exc Value :=
  text <- stringOf rt v ;;
  ret (match parseEpochSeconds rt text with
       | Some seconds => VNum seconds
       | None => VNaN
       end).

(** [const { k, ...rest } = v], the part that reads [k]: destructuring
    [undefined] or [null] is a [TypeError]. *)
Definition destructure (k source : string) (v : Value) : Exc Value :=
  match v with
  | VUndefined =>
      throw (ThrowError "TypeError"
               ("Cannot destructure property '" ++ k ++ "' of '" ++ source
                  ++ "' as it is undefined."))
  | VNull =>
      throw (ThrowError "TypeError"
               ("Cannot destructure property '" ++ k ++ "' of '" ++ source
                  ++ "' as it is null."))
  | _ => ret (getPropOpt v k)
  end.

(** The own enumerable properties of an array or of a string: its elements
    under their indices. *)
Fixpoint indexedFrom (i : nat) (items : list Value) : list (string * Value) :=
  match items with
  | [] => []
  | x :: rest => (numberToString (Z.of_nat i), x) :: indexedFrom (S i) rest
  end.

(** [const { k, ...rest } = v], the part that collects [rest]: the own
    enumerable properties of [v] other than [k]. *)
Definition restOf (rt : Runtime) (k : string) (v : Value) : list (string * Value) :=
  match v with
  | VObj props => without k props
  | VArr items => without k (indexedFrom 0 items)
  | VStr s => without k (indexedFrom 0 (map VStr (codeUnits rt s)))
  | _ => []
  end.

(** The property names every object literal inherits from [Object.prototype]:
    [k in obj] and [obj[k]] see them besides the literal's own keys. *)
Definition objectPrototypeProperties : list string :=
  [ "constructor"; "hasOwnProperty"; "isPrototypeOf"; "propertyIsEnumerable";
    "toLocaleString"; "toString"; "valueOf"; "__proto__";
    "__defineGetter__"; "__defineSetter__"; "__lookupGetter__"; "__lookupSetter__" ].

Definition member (k : string) (keys : list string) : bool :=
  existsb (String.eqb k) keys.

(** [k in obj], for an object literal with the own keys [own]. *)
Definition hasProperty (k : string) (own : list string) : bool :=
  member k own || member k objectPrototypeProperties.

(** [String(error)] for a caught value: [Error.prototype.toString] joins name
    and message.  What the retry loop catches is an instance of [Error]
    ([fetch] rejects with a [TypeError], [response.json()] with a
    [SyntaxError]); the last case is the text of another value that has
    one. *)
Definition thrownToString (rt : Runtime) (error : Thrown) : string :=
  match error with
  | ThrowTripIt e =>
      (match errorClass e with
       | TripItErrorClass => "TripItError"
       | AuthenticationErrorClass => "AuthenticationError"
       | NotFoundErrorClass => "NotFoundError"
       | ProRequiredErrorClass => "ProRequiredError"
       end) ++ ": " ++ message e
  | ThrowError name msg =>
      if (msg =? "")%string then name
      else if (name =? "")%string then msg
      else name ++ ": " ++ msg
  | ThrowValue v => toString rt v
  end.

(** ** The client as the tool handlers see it

    The public methods of [TripItClient] that the handlers call.  A handler
    passes what it reads from [args] without a run-time check (the casts are
    erased), so the parameters are [Value]s; each method resolves to the parsed
    payload or rejects.  The test suite substitutes a mock of this shape. *)
Record ListTripsOptions : Type := mkListTripsOptions {
  past : Value;
  modifiedSince : Value;
  includeObjects : Value;
  page : Value;
  pageSize : Value
}.

Record ClientApi : Type := mkClientApi {
  listTrips : ListTripsOptions -> Exc Value;
  getTrip : Value -> bool -> Exc Value;
  createTrip : Value -> Exc Value;
  updateTrip : Value -> Value -> Exc Value;
  deleteTrip : Value -> Exc unit;
  getObject : Value -> Value -> Exc Value;
  listObjects : Value -> Value -> Exc Value;
  createFlight : Value -> Value -> Exc Value;
  createHotel : Value -> Value -> Exc Value;
  createCar : Value -> Value -> Exc Value;
  createActivity : Value -> Value -> Exc Value;
  updateObject : Value -> Value -> Value -> Exc Value;
  deleteObject : Value -> Value -> Exc unit;
  getFlightStatus : Value -> Exc Value;
  listPointsPrograms : Exc Value;
  getProfile : Exc Value
}.

(** ** Tool handlers: src/mcp/tools/trips.ts, objects.ts, pro.ts, index.ts *)

(** The keys of [tripTools], [objectTools] and [proTools], in source order. *)
Definition tripTools : list string :=
  [ "tripit_list_trips"; "tripit_get_trip"; "tripit_create_trip";
    "tripit_update_trip"; "tripit_delete_trip" ].

Definition objectTools : list string :=
  [ "tripit_list_objects"; "tripit_get_object"; "tripit_create_flight";
    "tripit_create_hotel"; "tripit_create_car"; "tripit_create_activity";
    "tripit_update_object"; "tripit_delete_object" ].

Definition proTools : list string :=
  [ "tripit_get_flight_status"; "tripit_list_points_programs"; "tripit_get_profile" ].

(** [Object.entries(allTools).map(([name, config]) => ...)]: the descriptors in
    spread order, each represented by its name (descriptions and schemas are
    constant data). *)
Definition getToolDefinitions : list string := tripTools ++ objectTools ++ proTools.

Section Handlers.

Context (rt : Runtime) (client : ClientApi).

(** [{content: [{type: 'text', text: JSON.stringify(result, null, 2)}]}] *)
Definition jsonResult (result : Value) : ToolResult :=
  textResult (stringifyIndented rt result).

Definition unknownTool (name : string) : ToolResult :=
  errorResult ("Unknown tool: " ++ name).

(** The body of the [try] block of [handleTripTool]. *)
Definition tripToolBody (name : string) (args : Value) : Exc ToolResult :=
  if (name =? "tripit_list_trips")%string then
    include_past <- getProp args "include_past" ;;
    modified_since <- getProp args "modified_since" ;;
    since <-
      (if truthy modified_since then epochSeconds rt modified_since
       else ret VUndefined) ;;
    include_objects <- getProp args "include_objects" ;;
    page_ <- getProp args "page" ;;
    page_size <- getProp args "page_size" ;;
    result <- listTrips client
      {| past := include_past;
         modifiedSince := since;
         includeObjects := include_objects;
         page := page_;
         pageSize := page_size |} ;;
    ret (jsonResult result)
  else if (name =? "tripit_get_trip")%string then
    trip_id <- getProp args "trip_id" ;;
    include_objects <- getProp args "include_objects" ;;
    result <- getTrip client trip_id
      (match include_objects with VBool false => false | _ => true end) ;;
    ret (jsonResult result)
  else if (name =? "tripit_create_trip")%string then
    display_name <- getProp args "display_name" ;;
    start_date <- getProp args "start_date" ;;
    end_date <- getProp args "end_date" ;;
    primary_location <- getProp args "primary_location" ;;
    description <- getProp args "description" ;;
    result <- createTrip client
      (VObj [ ("display_name", display_name); ("start_date", start_date);
              ("end_date", end_date); ("primary_location", primary_location);
              ("description", description) ]) ;;
    ret (jsonResult result)
  else if (name =? "tripit_update_trip")%string then
    trip_id <- destructure "trip_id" "args" args ;;
    result <- updateTrip client trip_id (VObj (restOf rt "trip_id" args)) ;;
    ret (jsonResult result)
  else if (name =? "tripit_delete_trip")%string then
    trip_id <- getProp args "trip_id" ;;
    _ <- deleteTrip client trip_id ;;
    shown <- stringOf rt trip_id ;;
    ret (textResult ("Trip " ++ shown ++ " deleted successfully."))
  else ret (unknownTool name).

Definition handleTripTool (name : string) (args : Value) : ToolResult :=
  tryCatch (tripToolBody name args) handleTripItError.

(** The object literal a handler builds from the listed fields of [args]. *)
Fixpoint pick (args : Value) (keys : list (string * string)) : Exc (list (string * Value)) :=
  match keys with
  | [] => ret []
  | (field, key) :: rest =>
      v <- getProp args key ;;
      vs <- pick args rest ;;
      ret ((field, v) :: vs)
  end.

(** The body of the [try] block of [handleObjectTool]. *)
Definition objectToolBody (name : string) (args : Value) : Exc ToolResult :=
  if (name =? "tripit_list_objects")%string then
    object_type <- getProp args "object_type" ;;
    trip_id <- getProp args "trip_id" ;;
    result <- listObjects client object_type trip_id ;;
    ret (jsonResult result)
  else if (name =? "tripit_get_object")%string then
    object_type <- getProp args "object_type" ;;
    object_id <- getProp args "object_id" ;;
    result <- getObject client object_type object_id ;;
    ret (jsonResult result)
  else if (name =? "tripit_create_flight")%string then
    segments <- getProp args "segments" ;;
    trip_id <- getProp args "trip_id" ;;
    result <- createFlight client segments trip_id ;;
    ret (jsonResult result)
  else if (name =? "tripit_create_hotel")%string then
    data <- pick args
      [ ("supplier_name", "supplier_name"); ("start_date", "start_date");
        ("end_date", "end_date"); ("check_in_time", "check_in_time");
        ("check_out_time", "check_out_time"); ("confirmation_num", "confirmation_num");
        ("address", "address"); ("phone", "phone"); ("room_type", "room_type");
        ("notes", "notes") ] ;;
    trip_id <- getProp args "trip_id" ;;
    result <- createHotel client (VObj data) trip_id ;;
    ret (jsonResult result)
  else if (name =? "tripit_create_car")%string then
    data <- pick args
      [ ("supplier_name", "supplier_name"); ("start_date", "start_date");
        ("end_date", "end_date"); ("start_time", "start_time");
        ("end_time", "end_time"); ("pickup_location", "pickup_location");
        ("dropoff_location", "dropoff_location"); ("car_type", "car_type");
        ("confirmation_num", "confirmation_num") ] ;;
    trip_id <- getProp args "trip_id" ;;
    result <- createCar client (VObj data) trip_id ;;
    ret (jsonResult result)
  else if (name =? "tripit_create_activity")%string then
    data <- pick args
      [ ("display_name", "display_name"); ("start_date", "start_date");
        ("start_time", "start_time"); ("end_date", "end_date");
        ("end_time", "end_time"); ("location_name", "location_name");
        ("address", "address"); ("notes", "notes") ] ;;
    trip_id <- getProp args "trip_id" ;;
    result <- createActivity client (VObj data) trip_id ;;
    ret (jsonResult result)
  else if (name =? "tripit_update_object")%string then
    object_type <- getProp args "object_type" ;;
    object_id <- getProp args "object_id" ;;
    data <- getProp args "data" ;;
    result <- updateObject client object_type object_id data ;;
    ret (jsonResult result)
  else if (name =? "tripit_delete_object")%string then
    object_type <- getProp args "object_type" ;;
    object_id <- getProp args "object_id" ;;
    _ <- deleteObject client object_type object_id ;;
    shown <- joined rt object_type " " object_id ;;
    ret (textResult (shown ++ " deleted successfully."))
  else ret (unknownTool name).

Definition handleObjectTool (name : string) (args : Value) : ToolResult :=
  tryCatch (objectToolBody name args) handleTripItError.

(** One element of [statusInfo]: the callback of [segments.map] in
    [handleProTool]. *)
Definition segmentStatus (seg : Value) : Exc Value :=
  marketing_airline_code <- getProp seg "marketing_airline_code" ;;
  marketing_flight_number <- getProp seg "marketing_flight_number" ;;
  flight <- joined rt marketing_airline_code "" marketing_flight_number ;;
  start_airport_code <- getProp seg "start_airport_code" ;;
  end_airport_code <- getProp seg "end_airport_code" ;;
  route <- joined rt start_airport_code " → " end_airport_code ;;
  Status <- getProp seg "Status" ;;
  StartDateTime <- getProp seg "StartDateTime" ;;
  scheduled_departure <-
    (if truthy StartDateTime then
       joined rt (getPropOpt StartDateTime "date") " " (getPropOpt StartDateTime "time")
     else
       start_date <- getProp seg "start_date" ;;
       start_time <- getProp seg "start_time" ;;
       joined rt start_date " " start_time) ;;
  let estimated := getPropOpt Status "EstimatedDepartureDateTime" in
  estimated_departure <-
    (if truthy (getPropOpt estimated "date") then
       text <- joined rt (getPropOpt estimated "date") " " (getPropOpt estimated "time") ;;
       ret (VStr text)
     else ret VNull) ;;
  start_terminal <- getProp seg "start_terminal" ;;
  ret (VObj
    [ ("flight", VStr flight);
      ("route", VStr route);
      ("status", orElse (getPropOpt Status "flight_status") (VStr "Not monitored"));
      ("scheduled_departure", VStr scheduled_departure);
      ("estimated_departure", estimated_departure);
      ("departure_gate", coalesce (getPropOpt Status "departure_gate") VNull);
      ("departure_terminal", coalesce start_terminal VNull);
      ("baggage_claim", coalesce (getPropOpt Status "baggage_claim") VNull);
      ("delay_minutes", coalesce (getPropOpt Status "delay_in_minutes") VNull) ]).

(** [segments.map(...)] with a callback that may throw. *)
Fixpoint mapExc {A B : Type} (f : A -> Exc B) (l : list A) : Exc (list B) :=
  match l with
  | [] => ret []
  | x :: rest =>
      y <- f x ;;
      ys <- mapExc f rest ;;
      ret (y :: ys)
  end.

(** [s.status !== 'Not monitored'] *)
Definition monitored (s : Value) : bool :=
  match getPropOpt s "status" with
  | VStr status => negb (status =? "Not monitored")%string
  | _ => true
  end.

(** The body of the [try] block of [handleProTool]. *)
Definition proToolBody (name : string) (args : Value) : Exc ToolResult :=
  if (name =? "tripit_get_flight_status")%string then
    flight_id <- getProp args "flight_id" ;;
    result <- getFlightStatus client flight_id ;;
    airObject <- getProp result "AirObject" ;;
    if negb (truthy airObject) then ret (errorResult "Flight not found")
    else
      Segment <- getProp airObject "Segment" ;;
      let segments := match Segment with VArr items => items | other => [other] end in
      statusInfo <- mapExc segmentStatus segments ;;
      let hasStatus := existsb monitored statusInfo in
      if negb hasStatus && (0 <? Z.of_nat (List.length segments)) then
        ret (jsonResult
               (VObj [ ("note",
                        VStr "Real-time flight status requires TripIt Pro. Showing basic flight info.");
                       ("segments", VArr statusInfo) ]))
      else ret (jsonResult (VArr statusInfo))
  else if (name =? "tripit_list_points_programs")%string then
    result <- listPointsPrograms client ;;
    ret (jsonResult result)
  else if (name =? "tripit_get_profile")%string then
    result <- getProfile client ;;
    ret (jsonResult result)
  else ret (unknownTool name).

Definition handleProTool (name : string) (args : Value) : ToolResult :=
  tryCatch (proToolBody name args) handleTripItError.

(** Route a tool call to its handler: index.ts. *)
Definition handleToolCall (name : string) (args : Value) : ToolResult :=
  if hasProperty name tripTools then handleTripTool name args
  else if hasProperty name objectTools then handleObjectTool name args
  else if hasProperty name proTools then handleProTool name args
  else unknownTool name.

End Handlers.

(** ** The dispatcher: src/mcp/server.ts *)

Record MCPRequest : Type := mkMCPRequest {
  id : Value;
  method : string;
  params : Value
}.

(** The [result] member of a success response, one shape per method. *)
Inductive MethodResult : Type :=
| InitializeResult (protocolVersion serverName serverVersion : string)
| EmptyResult
| ToolsListResult (tools : list string)
| ToolCallResult (result : ToolResult)
| ResourcesListResult
| PromptsListResult.

(** [{jsonrpc, id, result}] or [{jsonrpc, id, error: {code, message}}]. *)
Inductive MCPResponse : Type :=
| ResultResponse (rid : Value) (result : MethodResult)
| ErrorResponse (rid : Value) (code : Z) (msg : string).

Definition responseId (r : MCPResponse) : Value :=
  match r with
  | ResultResponse rid _ => rid
  | ErrorResponse rid _ _ => rid
  end.

Definition PROTOCOL_VERSION : string := "2024-11-05".

(** [error instanceof Error ? error.message : 'Internal error'] *)
Definition caughtMessage (error : Thrown) : string :=
  match error with
  | ThrowTripIt e => message e
  | ThrowError _ msg => msg
  | ThrowValue _ => "Internal error"
  end.

(** What one call of the dispatcher does: the response it resolves to and the
    calls it made to the tool router, as (name, arguments) pairs in order. *)
Record Dispatch : Type := mkDispatch {
  response : MCPResponse;
  invocations : list (Value * Value)
}.

Section Dispatcher.

(** [handleToolCall(client, name, args)], awaited: it may reject. *)
Context (toolCall : Value -> Value -> Exc ToolResult).

(** The [switch] inside the [try] block, with the router calls it makes. *)
Definition dispatchBody (request : MCPRequest) : Exc MCPResponse * list (Value * Value) :=
  let m := method request in
  if (m =? "initialize")%string then
    (ret (ResultResponse (id request)
            (InitializeResult PROTOCOL_VERSION "tripit-mcp" "1.0.0")), [])
  else if (m =? "initialized")%string then
    (ret (ResultResponse (id request) EmptyResult), [])
  else if (m =? "tools/list")%string then
    (ret (ResultResponse (id request) (ToolsListResult getToolDefinitions)), [])
  else if (m =? "tools/call")%string then
    let toolParams := params request in
    if negb (truthy (getPropOpt toolParams "name")) then
      (ret (ErrorResponse (id request) (-32602) "Missing tool name"), [])
    else
      let name := getPropOpt toolParams "name" in
      let args := coalesce (getPropOpt toolParams "arguments") (VObj []) in
      (result <- toolCall name args ;;
       ret (ResultResponse (id request) (ToolCallResult result)),
       [(name, args)])
  else if (m =? "ping")%string then
    (ret (ResultResponse (id request) EmptyResult), [])
  else if (m =? "resources/list")%string then
    (ret (ResultResponse (id request) ResourcesListResult), [])
  else if (m =? "prompts/list")%string then
    (ret (ResultResponse (id request) PromptsListResult), [])
  else
    (ret (ErrorResponse (id request) (-32601) ("Method not found: " ++ m)), []).

Definition handleMCPRequest (request : MCPRequest) : Dispatch :=
  let (body, calls) := dispatchBody request in
  {| response :=
       tryCatch body
         (fun error => ErrorResponse (id request) (-32603) (caughtMessage error));
     invocations := calls |}.

End Dispatcher.

(** [handleToolCall] on the name as the dispatcher passes it: [params.name]
    is cast to [string] without a check.  For a name that is not a string,
    [name in tripTools] converts it to a property key, which throws for a name
    that has no text, outside every [try] of the router and of the handlers;
    otherwise the key and the template literal are the same text and no
    [case] of a handler's [switch] equals the name, so the call ends in an
    unknown-tool result. *)
Definition routeToolCall (rt : Runtime) (client : ClientApi) (name args : Value)
  : Exc ToolResult :=
  match name with
  | VStr s => ret (handleToolCall rt client s args)
  | other =>
      key <- stringOf rt other ;;
      ret (unknownTool key)
  end.

(** ** The client: src/tripit/client.ts *)

Definition BASE_URL : string := "https://api.tripit.com/v1".
Definition MAX_RETRIES : nat := 3.
Definition BASE_DELAY_MS : Z := 1000.
Definition MIN_REQUEST_INTERVAL_MS : Z := 400.

Inductive HttpMethod : Type := GET | POST.

Definition methodName (m : HttpMethod) : string :=
  match m with GET => "GET" | POST => "POST" end.

Definition Headers : Type := list (string * string).

(** [headers[k] = v] *)
Fixpoint setHeader (k v : string) (headers : Headers) : Headers :=
  match headers with
  | [] => [(k, v)]
  | (k', v') :: rest =>
      if (k =? k')%string then (k, v) :: rest else (k', v') :: setHeader k v rest
  end.

(** [TripItOAuth.signRequest(method, url, accessToken, accessTokenSecret)].
    The header is computed by the oauth-1.0a package, which draws a nonce and
    reads the clock on each call; both are explicit arguments here. *)
Definition TripItOAuth : Type :=
  forall (nonce : string) (timeMs : Z) (method url accessToken accessTokenSecret : string),
    Headers.

Record TripItClient : Type := mkTripItClient {
  oauth : TripItOAuth;
  accessToken : string;
  accessTokenSecret : string
}.

(** What the network answers to one [fetch]. *)
Inductive Outcome : Type :=
| NoResponse (name message : string)
    (** [fetch] rejects with an [Error]: no response was obtained *)
| Response (status : Z) (text : string) (json : string + Value).
    (** a response with its status, the body as [response.text()] gives it, and
        what [response.json()] resolves to ([inr]) or the message of the
        [SyntaxError] it rejects with ([inl]) *)

(** The environment of one logical call, indexed by the attempt number: the
    outcome of the attempt's [fetch], the time it takes, and the nonce the
    signer draws for it. *)
Record World : Type := mkWorld {
  outcome : nat -> Outcome;
  latency : nat -> Z;
  nonce : nat -> string
}.

(** The wall clock ([Date.now()]) and the client's [lastRequestTime]. *)
Record State : Type := mkState {
  now : Z;
  lastRequestTime : Z
}.

Record HttpRequest : Type := mkHttpRequest {
  httpMethod : HttpMethod;
  url : string;
  headers : Headers;
  body : option string
}.

(** The observable steps of a logical call. *)
Inductive Event : Type :=
| Throttled (ms : Z)
    (** [throttle] suspended the caller for [ms] *)
| Fetched (attempt : nat) (request : HttpRequest)
    (** attempt number [attempt] called [fetch] *)
| BackedOff (attempt : nat) (ms : Z).
    (** the backoff [setTimeout] of attempt [attempt] *)

Record Run : Type := mkRun {
  result : Exc Value;
  final : State;
  trace : list Event
}.

(** [await new Promise((resolve) => setTimeout(resolve, ms))] *)
Definition sleep (ms : Z) (st : State) : State :=
  {| now := now st + Z.max 0 ms; lastRequestTime := lastRequestTime st |}.

Definition throttle (st : State) : State * list Event :=
  let elapsed := now st - lastRequestTime st in
  let (st1, events) :=
    if elapsed <? MIN_REQUEST_INTERVAL_MS then
      (sleep (MIN_REQUEST_INTERVAL_MS - elapsed) st,
       [Throttled (MIN_REQUEST_INTERVAL_MS - elapsed)])
    else (st, []) in
  ({| now := now st1; lastRequestTime := now st1 |}, events).

(** [response.ok] *)
Definition ok (status : Z) : bool := (200 <=? status) && (status <=? 299).

(** [BASE_DELAY_MS * Math.pow(2, attempt)] *)
Definition backoffDelay (attempt : nat) : Z := BASE_DELAY_MS * 2 ^ Z.of_nat attempt.

(** How the [try] block of one iteration ends. *)
Inductive Completion : Type :=
| Return (payload : Value)
    (** [return (await response.json()) as T] *)
| Continue (delay : Z) (lastError : TripItError)
    (** the 429 / 5xx branch: wait [delay], record [lastError], [continue] *)
| Throw (error : Thrown).

Definition prepend (events : list Event) (r : Run) : Run :=
  {| result := result r; final := final r; trace := events ++ trace r |}.

Section Request.

Context (rt : Runtime) (client : TripItClient) (world : World).

(** The statements of the [try] block after [fetch] has settled. *)
Definition tryBlock (attempt : nat) (path : string) (o : Outcome) : Completion :=
  match o with
  | NoResponse name msg => Throw (ThrowError name msg)
  | Response status text json =>
      if status =? 401 then Throw (ThrowTripIt defaultAuthenticationError)
      else if status =? 404 then Throw (ThrowTripIt (newNotFoundError "resource" path))
      else if (status =? 429) || (status >=? 500) then
        Continue (backoffDelay attempt)
          (newTripItError status ("Server error: " ++ numberToString status))
      else if negb (ok status) then Throw (ThrowTripIt (newTripItError status text))
      else
        match json with
        | inr payload => Return payload
        | inl msg => Throw (ThrowError "SyntaxError" msg)
        end
  end.

(** The request of one attempt: url, signed headers and form body. *)
Definition buildRequest (attempt : nat) (m : HttpMethod) (path : string)
    (payload : Value) (st : State) : HttpRequest :=
  let url := BASE_URL ++ path in
  let requestUrl := match m with GET => url ++ "/format/json" | POST => url end in
  let signed :=
    oauth client (nonce world attempt) (now st) (methodName m) requestUrl
      (accessToken client) (accessTokenSecret client) in
  {| httpMethod := m;
     url := requestUrl;
     headers := setHeader "Content-Type" "application/x-www-form-urlencoded" signed;
     body :=
       match m with
       | POST =>
           if truthy payload then
             Some ("format=json&json=" ++ encodeURIComponent rt (stringify rt payload))
           else None
       | GET => None
       end |}.

(** The [for] loop of [request], from iteration [attempt] on; [remaining] is
    [MAX_RETRIES - attempt]. *)
Fixpoint attempts (m : HttpMethod) (path : string) (payload : Value)
    (remaining attempt : nat) (lastError : option TripItError) (st : State) : Run :=
  match remaining with
  | O =>
      {| result :=
           throw (ThrowTripIt
                    (match lastError with
                     | Some e => e
                     | None => newTripItError 0 "Request failed after retries"
                     end));
         final := st;
         trace := [] |}
  | S remaining' =>
      let (st1, throttled) := throttle st in
      let sent := Fetched attempt (buildRequest attempt m path payload st1) in
      let st2 := sleep (latency world attempt) st1 in
      match tryBlock attempt path (outcome world attempt) with
      | Return payload' =>
          {| result := ret payload'; final := st2; trace := throttled ++ [sent] |}
      | Continue delay e =>
          prepend (throttled ++ [sent; BackedOff attempt delay])
            (attempts m path payload remaining' (S attempt) (Some e) (sleep delay st2))
      | Throw error =>
          if instanceofAuthenticationError error || instanceofNotFoundError error then
            {| result := throw error; final := st2; trace := throttled ++ [sent] |}
          else
            let e :=
              match error with
              | ThrowTripIt e => e
              | _ => newTripItError 0 (thrownToString rt error)
              end in
            let delay := backoffDelay attempt in
            prepend (throttled ++ [sent; BackedOff attempt delay])
              (attempts m path payload remaining' (S attempt) (Some e) (sleep delay st2))
      end
  end.

Definition request (m : HttpMethod) (path : string) (payload : Value) (st : State) : Run :=
  attempts m path payload MAX_RETRIES 0 None st.

(** The key table of [capitalize]. *)
Definition typeMap : list (string * string) :=
  [ ("air", "AirObject"); ("lodging", "LodgingObject"); ("car", "CarObject");
    ("rail", "RailObject"); ("cruise", "CruiseObject");
    ("restaurant", "RestaurantObject"); ("activity", "ActivityObject");
    ("note", "NoteObject"); ("directions", "DirectionsObject");
    ("transport", "TransportObject"); ("parking", "ParkingObject");
    ("map", "MapObject") ].

Fixpoint typeMapGet (s : string) (table : list (string * string)) : option string :=
  match table with
  | [] => None
  | (k, v) :: rest => if (s =? k)%string then Some v else typeMapGet s rest
  end.

(** A byte below 128 is a character of its own, and that character is ASCII. *)
Definition isAscii (c : ascii) : bool := (nat_of_ascii c <? 128)%nat.

(** [c.toUpperCase()] on an ASCII character: the letters [a] to [z] have an
    upper case, every other ASCII character is its own. *)
Definition toUpperCase (c : ascii) : ascii :=
  let n := nat_of_ascii c in
  if (97 <=? n)%nat && (n <=? 122)%nat then ascii_of_nat (n - 32) else c.

(** [s.charAt(0).toUpperCase() + s.slice(1)].  The upper case of a first
    character outside ASCII is the engine's Unicode mapping, which can change
    the length (of a sharp s, for instance). *)
Definition upperFirst (s : string) : string :=
  match s with
  | EmptyString => EmptyString
  | String c rest =>
      if isAscii c then String (toUpperCase c) rest else upperFirstUnicode rt s
  end.

(** [typeMap[s] || s.charAt(0).toUpperCase() + s.slice(1)], as the property key
    it is then used for.  [typeMap] is an object literal: [typeMap[s]] also
    finds the members inherited from [Object.prototype], which are truthy. *)
Definition capitalize (s : string) : string :=
  match typeMapGet s typeMap with
  | Some key => if (key =? "")%string then upperFirst s else key
  | None =>
      if member s objectPrototypeProperties then inheritedToString rt s
      else upperFirst s
  end.

(** The properties of the caller's [data] object once [createObject] has run:
    [payload[key]] is that very object, so the assignment of [trip_id] is
    made in place. *)
Definition dataAfterCreate (data : list (string * Value)) (tripId : Value)
  : list (string * Value) :=
  if truthy tripId then assign "trip_id" tripId data else data.

(** [{ [key]: data }], read when the request is sent. *)
Definition createPayload (type : string) (data : list (string * Value)) (tripId : Value)
  : Value :=
  VObj [ (capitalize type, VObj (dataAfterCreate data tripId)) ].

Definition createObject (type : string) (data : list (string * Value)) (tripId : Value)
    (st : State) : Run :=
  request POST "/create" (createPayload type data tripId) st.

End Request.

(** ** Observations on a run *)

(** The number of attempts that reached [fetch]. *)
Fixpoint fetchCount (tr : list Event) : nat :=
  match tr with
  | [] => 0
  | Fetched _ _ :: rest => S (fetchCount rest)
  | _ :: rest => fetchCount rest
  end.

(** The backoff waits of a run, in order. *)
Fixpoint backoffs (tr : list Event) : list Z :=
  match tr with
  | [] => []
  | BackedOff _ ms :: rest => ms :: backoffs rest
  | _ :: rest => backoffs rest
  end.

(** The backoff wait that directly follows the [fetch] of attempt [attempt],
    if there is one. *)
Fixpoint waitAfter (attempt : nat) (tr : list Event) : option Z :=
  match tr with
  | [] => None
  | Fetched a _ :: rest =>
      if Nat.eqb a attempt then
        match rest with
        | BackedOff _ ms :: _ => Some ms
        | _ => None
        end
      else waitAfter attempt rest
  | _ :: rest => waitAfter attempt rest
  end.

(** The retryable classifications: HTTP 429, HTTP 5xx and above, and a
    transport failure. *)
Definition retryable (o : Outcome) : bool :=
  match o with
  | NoResponse _ _ => true
  | Response status _ _ => (status =? 429) || (status >=? 500)
  end.

(** The error [request] records for a retryable outcome. *)
Definition retryError (rt : Runtime) (o : Outcome) : TripItError :=
  match o with
  | NoResponse name msg => newTripItError 0 (thrownToString rt (ThrowError name msg))
  | Response status _ _ => newTripItError status ("Server error: " ++ numberToString status)
  end.

(** One iteration seen from the loop: it ends the call or goes on after a wait. *)
Inductive Verdict : Type :=
| Done (r : Exc Value)
| Retry (delay : Z) (e : TripItError).

Definition verdict (rt : Runtime) (attempt : nat) (path : string) (o : Outcome) : Verdict :=
  match tryBlock attempt path o with
  | Return payload => Done (ret payload)
  | Continue delay e => Retry delay e
  | Throw error =>
      if instanceofAuthenticationError error || instanceofNotFoundError error then
        Done (throw error)
      else
        Retry (backoffDelay attempt)
          (match error with
           | ThrowTripIt e => e
           | _ => newTripItError 0 (thrownToString rt error)
           end)
  end.

(** The double quote character. *)
Definition dquote : string := String (ascii_of_nat 34) EmptyString.

(** A small serializer, enough for the closed instances below: strings are
    quoted without escapes. *)
Fixpoint render (v : Value) : string :=
  match v with
  | VUndefined => "undefined"
  | VNull => "null"
  | VBool true => "true"
  | VBool false => "false"
  | VNum n => numberToString n
  | VNaN => "null"
  | VStr s => dquote ++ s ++ dquote
  | VArr items => "[" ++ String.concat "," (map render items) ++ "]"
  | VObj props =>
      "{" ++ String.concat ","
               (map (fun kv : string * Value => let (k, x) := kv in (dquote ++ k ++ dquote ++ ":" ++ render x)) props)
          ++ "}"
  end.

(** Sample environment for closed instances, all of which use ASCII strings
    and values that have a text. *)
Definition sampleRuntime : Runtime :=
  {| stringify := render;
     stringifyIndented := render;
     toString := fun v =>
       match v with
       | VStr s => s
       | VNaN => "NaN"
       | other => render other
       end;
     encodeURIComponent := fun s => s;
     parseEpochSeconds := fun s =>
       if (s =? "2024-01-01T00:00:00Z")%string then Some 1704067200 else None;
     inheritedToString := fun k =>
       if (k =? "__proto__")%string then "[object Object]"
       else if (k =? "constructor")%string then "function Object() { [native code] }"
       else "function " ++ k ++ "() { [native code] }";
     codeUnits := fun s => map (fun c => String c EmptyString) (list_ascii_of_string s);
     upperFirstUnicode := fun s => s |}.

Definition sampleClient : TripItClient :=
  {| oauth := fun nonce _ _ _ _ _ => [("Authorization", "OAuth oauth_nonce=" ++ nonce)];
     accessToken := "token";
     accessTokenSecret := "secret" |}.

(** Every attempt gets the same answer. *)
Definition always (o : Outcome) : World :=
  {| outcome := fun _ => o; latency := fun _ => 50; nonce := fun _ => "n" |}.

(** The first [List.length answers] attempts get the listed answers, later
    ones [o]. *)
Definition answering (answers : list Outcome) (o : Outcome) : World :=
  {| outcome := fun i => nth i answers o; latency := fun _ => 50; nonce := fun _ => "n" |}.

Definition startState : State := {| now := 1000000; lastRequestTime := 0 |}.


(** A mock client in the manner of test/mcp-server.test.ts: every method
    resolves to an empty object. *)
Definition mockClient : ClientApi :=
  {| listTrips := fun _ => ret (VObj [("Trip", VArr [])]);
     getTrip := fun _ _ => ret (VObj []);
     createTrip := fun _ => ret (VObj []);
     updateTrip := fun _ _ => ret (VObj []);
     deleteTrip := fun _ => ret tt;
     getObject := fun _ _ => ret (VObj []);
     listObjects := fun _ _ => ret (VObj []);
     createFlight := fun _ _ => ret (VObj []);
     createHotel := fun _ _ => ret (VObj []);
     createCar := fun _ _ => ret (VObj []);
     createActivity := fun _ _ => ret (VObj []);
     updateObject := fun _ _ _ => ret (VObj []);
     deleteObject := fun _ _ => ret tt;
     getFlightStatus := fun _ => ret (VObj [("AirObject", VObj [("Segment", VArr [])])]);
     listPointsPrograms := ret (VObj []);
     getProfile := ret (VObj []) |}.

(** A client every method of which rejects with [error]. *)
Definition rejectingClient (error : Thrown) : ClientApi :=
  {| listTrips := fun _ => throw error;
     getTrip := fun _ _ => throw error;
     createTrip := fun _ => throw error;
     updateTrip := fun _ _ => throw error;
     deleteTrip := fun _ => throw error;
     getObject := fun _ _ => throw error;
     listObjects := fun _ _ => throw error;
     createFlight := fun _ _ => throw error;
     createHotel := fun _ _ => throw error;
     createCar := fun _ _ => throw error;
     createActivity := fun _ _ => throw error;
     updateObject := fun _ _ _ => throw error;
     deleteObject := fun _ _ => throw error;
     getFlightStatus := fun _ => throw error;
     listPointsPrograms := throw error;
     getProfile := throw error |}.

(** ** Statements the program does not satisfy as they are worded *)

(** "No backoff wait occurs after the final attempt fails": a call that fails
    has no wait behind its last [fetch]. *)
Definition NoWaitAfterFinalFailure : Prop :=
  forall (rt : Runtime) (client : TripItClient) (world : World)
         (m : HttpMethod) (path : string) (payload : Value) (st : State),
    let r := request rt client world m path payload st in
    (exists error, result r = throw error) ->
    waitAfter (Nat.pred (fetchCount (trace r))) (trace r) = None.

(** "When [params.name] is present, the router's result is wrapped as the
    method result." *)
Definition PresentNameIsDelegated : Prop :=
  forall (toolCall : Value -> Value -> Exc ToolResult) (request : MCPRequest)
         (name : Value) (r : ToolResult),
    method request = "tools/call" ->
    getPropOpt (params request) "name" = name ->
    name <> VUndefined ->
    toolCall name (coalesce (getPropOpt (params request) "arguments") (VObj [])) = ret r ->
    response (handleMCPRequest toolCall request)
    = ResultResponse (id request) (ToolCallResult r).

(** "[trip_id] is inserted into the data mapping whenever a [tripId] argument
    is supplied." *)
Definition TripIdInsertedWhenSupplied : Prop :=
  forall (rt : Runtime) (type mapped : string) (data : list (string * Value))
         (tripId : Value),
    In (type, mapped) typeMap ->
    tripId <> VUndefined ->
    createPayload rt type data tripId
    = VObj [ (mapped, VObj (assign "trip_id" tripId data)) ].

(** "For a type outside the table, the key is the type with its first
    character uppercased." *)
Definition FallbackKeyIsCapitalised : Prop :=
  forall (rt : Runtime) (type : string),
    typeMapGet type typeMap = None -> capitalize rt type = upperFirst rt type.
(** ** Further observations *)

(** [headers[k]] *)
Fixpoint getHeader (k : string) (headers : Headers) : option string :=
  match headers with
  | [] => None
  | (k', v) :: rest => if (k =? k')%string then Some v else getHeader k rest
  end.

(** The url a call of [request] fetches. *)
Definition requestUrl (m : HttpMethod) (path : string) : string :=
  match m with
  | GET => BASE_URL ++ path ++ "/format/json"
  | POST => BASE_URL ++ path
  end.

(** What [request] can throw: an instance of [TripItError] whose status is 0
    or the status of a refused response of one of the first [bound] attempts. *)
Definition Thrown_by_request (world : World) (bound : nat) (error : Thrown) : Prop :=
  exists e,
    error = ThrowTripIt e
    /\ (statusCode e = 0
        \/ exists i text json,
             (i < bound)%nat
             /\ outcome world i = Response (statusCode e) text json
             /\ ok (statusCode e) = false).

(** ** The operations of the client: src/tripit/client.ts

    The public methods of [TripItClient], for a call that starts in state
    [st].  The handlers hand over what they read from [args] unchecked, so the
    parameters are [Value]s and a template literal is the coercion
    [stringOf]: a method whose path has a part without a text rejects before
    it calls [request]. *)
Module Client.

Section Operations.

Context (rt : Runtime) (client : TripItClient) (world : World) (st : State).

(** [await this.request(method, path, body)] *)
Definition send (m : HttpMethod) (path : string) (payload : Value) : Exc Value :=
  result (request rt client world m path payload st).

(** [if (v) path += `${label}${v}`] *)
Definition segment (path label : string) (v : Value) : Exc string :=
  if truthy v then
    text <- stringOf rt v ;;
    ret (path ++ label ++ text)
  else ret path.

(** The path [listTrips] builds from its options. *)
Definition listTripsPath (options : ListTripsOptions) : Exc string :=
  let path := "/list/trip" in
  let path := if truthy (past options) then path ++ "/past/true" else path in
  path <- segment path "/modified_since/" (modifiedSince options) ;;
  let path :=
    if truthy (includeObjects options) then path ++ "/include_objects/true" else path in
  path <- segment path "/page_num/" (page options) ;;
  segment path "/page_size/" (pageSize options).

Definition listTrips (options : ListTripsOptions) : Exc Value :=
  path <- listTripsPath options ;;
  send GET path VUndefined.

Definition getTrip (id : Value) (includeObjects : bool) : Exc Value :=
  text <- stringOf rt id ;;
  send GET ("/get/trip/id/" ++ text
              ++ (if includeObjects then "/include_objects/true" else ""))
    VUndefined.

Definition createTrip (data : Value) : Exc Value :=
  send POST "/create" (VObj [("Trip", data)]).

Definition updateTrip (id data : Value) : Exc Value :=
  text <- stringOf rt id ;;
  send POST ("/replace/trip/id/" ++ text) (VObj [("Trip", data)]).

Definition deleteTrip (id : Value) : Exc unit :=
  text <- stringOf rt id ;;
  _ <- send GET ("/delete/trip/id/" ++ text) VUndefined ;;
  ret tt.

Definition getObject (type id : Value) : Exc Value :=
  path <- joined rt type "/id/" id ;;
  send GET ("/get/" ++ path) VUndefined.

Definition listObjects (type tripId : Value) : Exc Value :=
  path <-
    (if truthy tripId then joined rt type "/trip_id/" tripId
     else stringOf rt type) ;;
  send GET ("/list/" ++ path) VUndefined.

(** [this.capitalize(type)] for an argument that need not be a string:
    [typeMap[s]] looks up the property key of [s], and the fallback calls
    [s.charAt], which only a string has. *)
Definition capitalizeValue (s : Value) : Exc string :=
  k <- match s with VStr x => ret x | other => stringOf rt other end ;;
  match typeMapGet k typeMap with
  | Some key => if (key =? "")%string then
                  match s with
                  | VStr x => ret (upperFirst rt x)
                  | _ => throw (ThrowError "TypeError" "s.charAt is not a function")
                  end
                else ret key
  | None =>
      if member k objectPrototypeProperties then ret (inheritedToString rt k)
      else
        match s with
        | VStr x => ret (upperFirst rt x)
        | VUndefined =>
            throw (ThrowError "TypeError"
                     "Cannot read properties of undefined (reading 'charAt')")
        | VNull =>
            throw (ThrowError "TypeError"
                     "Cannot read properties of null (reading 'charAt')")
        | _ => throw (ThrowError "TypeError" "s.charAt is not a function")
        end
  end.

Definition updateObject (type id data : Value) : Exc Value :=
  key <- capitalizeValue type ;;
  path <- joined rt type "/id/" id ;;
  send POST ("/replace/" ++ path) (VObj [(key, data)]).

Definition deleteObject (type id : Value) : Exc unit :=
  path <- joined rt type "/id/" id ;;
  _ <- send GET ("/delete/" ++ path) VUndefined ;;
  ret tt.

(** [if (v) obj[k] = w] *)
Definition setIf (v : Value) (k : string) (w : Value) (obj : list (string * Value))
  : list (string * Value) :=
  if truthy v then assign k w obj else obj.

Definition createFlight (segments tripId : Value) : Exc Value :=
  result (createObject rt client world "air" [("Segment", segments)] tripId st).

(** The [lodgingData] object of [createHotel]. *)
Definition lodgingData (data : Value) : Exc (list (string * Value)) :=
  supplier_name <- getProp data "supplier_name" ;;
  start_date <- getProp data "start_date" ;;
  end_date <- getProp data "end_date" ;;
  address <- getProp data "address" ;;
  check_in_time <- getProp data "check_in_time" ;;
  check_out_time <- getProp data "check_out_time" ;;
  confirmation_num <- getProp data "confirmation_num" ;;
  phone <- getProp data "phone" ;;
  room_type <- getProp data "room_type" ;;
  notes <- getProp data "notes" ;;
  ret (setIf notes "notes" notes
      (setIf room_type "room_type" room_type
      (setIf phone "supplier_phone" phone
      (setIf confirmation_num "supplier_conf_num" confirmation_num
      (setIf check_out_time "EndDateTime" (VObj [("time", check_out_time)])
      (setIf check_in_time "StartDateTime" (VObj [("time", check_in_time)])
         [ ("supplier_name", supplier_name); ("start_date", start_date);
           ("end_date", end_date); ("Address", address) ])))))).

Definition createHotel (data tripId : Value) : Exc Value :=
  obj <- lodgingData data ;;
  result (createObject rt client world "lodging" obj tripId st).

(** The [carData] object of [createCar]. *)
Definition carData (data : Value) : Exc (list (string * Value)) :=
  supplier_name <- getProp data "supplier_name" ;;
  start_date <- getProp data "start_date" ;;
  end_date <- getProp data "end_date" ;;
  pickup_location <- getProp data "pickup_location" ;;
  pickup_city <- getProp pickup_location "city" ;;
  dropoff_location <- getProp data "dropoff_location" ;;
  start_time <- getProp data "start_time" ;;
  end_time <- getProp data "end_time" ;;
  car_type <- getProp data "car_type" ;;
  confirmation_num <- getProp data "confirmation_num" ;;
  ret (setIf confirmation_num "supplier_conf_num" confirmation_num
      (setIf car_type "car_type" car_type
      (setIf end_time "EndDateTime" (VObj [("time", end_time)])
      (setIf start_time "StartDateTime" (VObj [("time", start_time)])
         [ ("supplier_name", supplier_name); ("start_date", start_date);
           ("end_date", end_date);
           ("start_location_name", pickup_city);
           ("StartLocationAddress", pickup_location);
           ("end_location_name", orElse (getPropOpt dropoff_location "city") pickup_city);
           ("EndLocationAddress", orElse dropoff_location pickup_location) ])))).

Definition createCar (data tripId : Value) : Exc Value :=
  obj <- carData data ;;
  result (createObject rt client world "car" obj tripId st).

(** The [activityData] object of [createActivity]. *)
Definition activityData (data : Value) : Exc (list (string * Value)) :=
  display_name <- getProp data "display_name" ;;
  start_date <- getProp data "start_date" ;;
  start_time <- getProp data "start_time" ;;
  end_date <- getProp data "end_date" ;;
  end_time <- getProp data "end_time" ;;
  location_name <- getProp data "location_name" ;;
  address <- getProp data "address" ;;
  notes <- getProp data "notes" ;;
  ret (setIf notes "notes" notes
      (setIf address "Address" address
      (setIf location_name "location_name" location_name
      (setIf end_time "end_time" end_time
      (setIf end_date "end_date" end_date
      (setIf start_time "start_time" start_time
         [ ("display_name", display_name); ("start_date", start_date) ])))))).

Definition createActivity (data tripId : Value) : Exc Value :=
  obj <- activityData data ;;
  result (createObject rt client world "activity" obj tripId st).

Definition getFlightStatus (airId : Value) : Exc Value :=
  text <- stringOf rt airId ;;
  send GET ("/get/air/id/" ++ text) VUndefined.

Definition listPointsPrograms : Exc Value := send GET "/list/points_program" VUndefined.

Definition getProfile : Exc Value := send GET "/get/profile" VUndefined.

(** The client, as the handlers use it: a handler calls one method, once, so
    every method starts in [st]. *)
Definition api : ClientApi :=
  mkClientApi listTrips getTrip createTrip updateTrip deleteTrip getObject listObjects
    createFlight createHotel createCar createActivity updateObject deleteObject
    getFlightStatus listPointsPrograms getProfile.

End Operations.

End Client.

(** ** The request as it arrives: src/mcp/server.ts, src/index.ts *)

(** [handleMCPRequest(client, request)] for a request taken as the value
    [c.req.json()] resolved to (the cast to [MCPRequest] is erased).  The
    destructuring [const { id, method, params } = request] stands before the
    [try]: for [null] and [undefined] it throws.  A [method] that is not a
    string equals no [case] label and reaches the default case, whose
    template literal converts it inside the [try]. *)
Definition defaultCase (rt : Runtime) (rid method : Value) : MCPResponse :=
  tryCatch
    (text <- stringOf rt method ;;
     ret (ErrorResponse rid (-32601) ("Method not found: " ++ text)))
    (fun error => ErrorResponse rid (-32603) (caughtMessage error)).

Definition handleMCPRequestOf (rt : Runtime) (toolCall : Value -> Value -> Exc ToolResult)
    (request : Value) : Exc Dispatch :=
  rid <- destructure "id" "request" request ;;
  match getPropOpt request "method" with
  | VStr m =>
      ret (handleMCPRequest toolCall
             {| id := rid; method := m; params := getPropOpt request "params" |})
  | other => ret {| response := defaultCase rt rid other; invocations := [] |}
  end.

(** [c.json(body, status)] *)
Record HttpReply : Type := mkHttpReply {
  httpStatus : Z;
  replyBody : MCPResponse
}.

(** [s.slice(n)] for [n] within the string. *)
Definition slice (n : nat) (s : string) : string :=
  substring n (String.length s - n) s.

Section Endpoint.

(** [c.env.TOKENS.get(key)]: the stored value, or [null]. *)
Context (tokens : string -> option string).

(** [handleMCPRequest(new TripItClient(oauth, accessToken, accessTokenSecret), body)],
    awaited. *)
Context (dispatch : string -> string -> Value -> Exc MCPResponse).

Definition missingAuthorization : HttpReply :=
  {| httpStatus := 401;
     replyBody :=
       ErrorResponse VNull (-32600) "Missing Authorization header. Use: Bearer <user_id>" |}.

Definition invalidSession : HttpReply :=
  {| httpStatus := 401;
     replyBody :=
       ErrorResponse VNull (-32600)
         "Invalid or expired session. Please re-authorize at /oauth/start" |}.

Definition parseError : HttpReply :=
  {| httpStatus := 400; replyBody := ErrorResponse VNull (-32700) "Parse error" |}.

(** [!v] for [v: string | null] *)
Definition absent (v : option string) : bool :=
  match v with
  | None => true
  | Some s => (s =? "")%string
  end.

(** The handler of [POST /mcp]: [authorization] is the Authorization header
    if the request has one, [body] what [c.req.json()] resolves to, [None]
    when it rejects. *)
Definition mcpEndpoint (authorization : option string) (body : option Value)
  : Exc HttpReply :=
  match authorization with
  | None => ret missingAuthorization
  | Some authHeader =>
      if negb (prefix "Bearer " authHeader) then ret missingAuthorization
      else
        let userId := slice 7 authHeader in
        let accessToken := tokens ("user:" ++ userId ++ ":access_token") in
        let accessTokenSecret := tokens ("user:" ++ userId ++ ":access_token_secret") in
        if absent accessToken || absent accessTokenSecret then ret invalidSession
        else
          match accessToken, accessTokenSecret, body with
          | Some token, Some secret, Some parsed =>
              r <- dispatch token secret parsed ;;
              ret {| httpStatus := 200; replyBody := r |}
          | _, _, _ => ret parseError
          end
  end.

End Endpoint.

(** ** Statements about thrown exceptions that the program does not satisfy *)


(** "The tool handler never throws", for the names and arguments the
    dispatcher hands over: a truthy name and arguments that are not [null]. *)
Definition ToolCallNeverThrows : Prop :=
  forall (rt : Runtime) (client : ClientApi) (name args : Value),
    truthy name = true -> nullish args = false ->
    exists r, routeToolCall rt client name args = ret r.

(** ** The arguments a tool converts to text

    The values a tool call converts to text before the client sends its
    request: the date of [tripit_list_trips] and the parts of the path. *)
Definition coercedArguments (name : string) (args : Value) : list Value :=
  let arg := getPropOpt args in
  let ifTruthy v := if truthy v then [v] else [] in
  if (name =? "tripit_list_trips")%string then
    (ifTruthy (arg "modified_since") ++ ifTruthy (arg "page")
       ++ ifTruthy (arg "page_size"))%list
  else if (name =? "tripit_get_trip")%string || (name =? "tripit_update_trip")%string
          || (name =? "tripit_delete_trip")%string then
    [arg "trip_id"]
  else if (name =? "tripit_list_objects")%string then
    arg "object_type" :: ifTruthy (arg "trip_id")
  else if (name =? "tripit_get_object")%string
          || (name =? "tripit_update_object")%string
          || (name =? "tripit_delete_object")%string then
    [arg "object_type"; arg "object_id"]
  else if (name =? "tripit_get_flight_status")%string then [arg "flight_id"]
  else [].

(** ** The retry loop *)

Section RetryLoop.

Context (rt : Runtime) (client : TripItClient) (world : World).
Context (m : HttpMethod) (path : string) (payload : Value).

Lemma attempts_step (remaining attempt : nat) (lastError : option TripItError) (st : State) :
  attempts rt client world m path payload (S remaining) attempt lastError st =
  let st1 := fst (throttle st) in
  let sent := Fetched attempt (buildRequest rt client world attempt m path payload st1) in
  let st2 := sleep (latency world attempt) st1 in
  match verdict rt attempt path (outcome world attempt) with
  | Done r => {| result := r; final := st2; trace := snd (throttle st) ++ [sent] |}
  | Retry delay e =>
      prepend (snd (throttle st) ++ [sent; BackedOff attempt delay])
        (attempts rt client world m path payload remaining (S attempt) (Some e)
           (sleep delay st2))
  end.
Proof.
  cbn [attempts]. unfold verdict.
  destruct (throttle st) as [st1 throttled]. cbn [fst snd].
  destruct (tryBlock attempt path (outcome world attempt)) as [v | d e | error];
    try reflexivity.
  destruct (instanceofAuthenticationError error || instanceofNotFoundError error);
    reflexivity.
Qed.

Lemma verdict_retry_delay (attempt : nat) (o : Outcome) (delay : Z) (e : TripItError) :
  verdict rt attempt path o = Retry delay e -> delay = backoffDelay attempt.
Proof.
  unfold verdict, tryBlock. intros H.
  destruct o as [name msg | status text json].
  - cbn in H. now inversion H.
  - destruct (status =? 401); [discriminate H |].
    destruct (status =? 404); [discriminate H |].
    destruct ((status =? 429) || (status >=? 500)); [now inversion H |].
    destruct (negb (ok status)); [cbn in H; now inversion H |].
    destruct json; [cbn in H; now inversion H | discriminate H].
Qed.

Lemma verdict_retryable (attempt : nat) (o : Outcome) :
  retryable o = true ->
  verdict rt attempt path o = Retry (backoffDelay attempt) (retryError rt o).
Proof.
  unfold verdict, tryBlock, retryable, retryError. intros H.
  destruct o as [name msg | status text json].
  - reflexivity.
  - destruct (status =? 401) eqn:E401.
    { apply Z.eqb_eq in E401. subst status. discriminate H. }
    destruct (status =? 404) eqn:E404.
    { apply Z.eqb_eq in E404. subst status. discriminate H. }
    rewrite H. reflexivity.
Qed.

Lemma verdict_401 (attempt : nat) (text : string) (json : string + Value) :
  verdict rt attempt path (Response 401 text json) =
  Done (throw (ThrowTripIt defaultAuthenticationError)).
Proof. reflexivity. Qed.

Lemma verdict_404 (attempt : nat) (text : string) (json : string + Value) :
  verdict rt attempt path (Response 404 text json) =
  Done (throw (ThrowTripIt (newNotFoundError "resource" path))).
Proof. reflexivity. Qed.

Lemma throttle_events (st : State) :
  snd (throttle st) = [] \/ exists ms, snd (throttle st) = [Throttled ms].
Proof.
  unfold throttle.
  destruct (now st - lastRequestTime st <? MIN_REQUEST_INTERVAL_MS); cbn; eauto.
Qed.

Lemma fetchCount_throttle (st : State) (tr : list Event) :
  fetchCount (snd (throttle st) ++ tr)%list = fetchCount tr.
Proof. destruct (throttle_events st) as [-> | [ms ->]]; reflexivity. Qed.

Lemma backoffs_throttle (st : State) (tr : list Event) :
  backoffs (snd (throttle st) ++ tr)%list = backoffs tr.
Proof. destruct (throttle_events st) as [-> | [ms ->]]; reflexivity. Qed.

Lemma waitAfter_throttle (i : nat) (st : State) (tr : list Event) :
  waitAfter i (snd (throttle st) ++ tr)%list = waitAfter i tr.
Proof. destruct (throttle_events st) as [-> | [ms ->]]; reflexivity. Qed.

(** The trace of an iteration that ends the call. *)
Lemma attempts_done (remaining attempt : nat) (lastError : option TripItError)
    (st : State) (r : Exc Value) :
  verdict rt attempt path (outcome world attempt) = Done r ->
  let run := attempts rt client world m path payload (S remaining) attempt lastError st in
  result run = r
  /\ fetchCount (trace run) = 1%nat
  /\ backoffs (trace run) = []
  /\ waitAfter attempt (trace run) = None
  /\ exists before request, trace run = (before ++ [Fetched attempt request])%list.
Proof.
  intros Hv. cbv zeta. rewrite attempts_step. cbv zeta. rewrite Hv.
  cbn [result trace].
  rewrite fetchCount_throttle, backoffs_throttle, waitAfter_throttle.
  cbn. rewrite Nat.eqb_refl. repeat split; eauto.
Qed.

(** The trace of an iteration that goes on. *)
Lemma attempts_retry (remaining attempt : nat) (lastError : option TripItError)
    (st : State) (delay : Z) (e : TripItError) :
  verdict rt attempt path (outcome world attempt) = Retry delay e ->
  exists st',
    let run := attempts rt client world m path payload (S remaining) attempt lastError st in
    let rest := attempts rt client world m path payload remaining (S attempt) (Some e) st' in
    result run = result rest
    /\ fetchCount (trace run) = S (fetchCount (trace rest))
    /\ backoffs (trace run) = backoffDelay attempt :: backoffs (trace rest)
    /\ waitAfter attempt (trace run) = Some (backoffDelay attempt)
    /\ (forall i, i <> attempt -> waitAfter i (trace run) = waitAfter i (trace rest))
    /\ exists before, trace run = (before ++ trace rest)%list.
Proof.
  intros Hv. pose proof (verdict_retry_delay _ _ _ _ Hv) as ->.
  eexists. cbv zeta. rewrite attempts_step. cbv zeta. rewrite Hv.
  cbn [result trace prepend]. rewrite <- app_assoc.
  rewrite fetchCount_throttle, backoffs_throttle.
  split; [reflexivity |]. split; [reflexivity |]. split; [reflexivity |].
  split; [| split].
  - rewrite waitAfter_throttle. cbn. now rewrite Nat.eqb_refl.
  - intros i Hi. rewrite waitAfter_throttle. cbn.
    destruct (Nat.eqb attempt i) eqn:E; [apply Nat.eqb_eq in E; congruence | reflexivity].
  - eexists. rewrite app_assoc. reflexivity.
Qed.

End RetryLoop.

Section RetryPolicy.

Context (rt : Runtime) (client : TripItClient) (world : World).
Context (m : HttpMethod) (path : string) (payload : Value).

#[local] Abbreviation loop := (attempts rt client world m path payload).

Lemma attempts_fetchCount_le (remaining attempt : nat) (lastError : option TripItError)
    (st : State) :
  (fetchCount (trace (loop remaining attempt lastError st)) <= remaining)%nat.
Proof.
  revert attempt lastError st.
  induction remaining as [| remaining IH]; intros attempt lastError st.
  - cbn. lia.
  - destruct (verdict rt attempt path (outcome world attempt)) as [r | delay e] eqn:Hv.
    + destruct (attempts_done rt client world m path payload remaining attempt
                  lastError st r Hv) as (_ & H & _).
      rewrite H. lia.
    + destruct (attempts_retry rt client world m path payload remaining attempt
                  lastError st delay e Hv) as (st' & _ & H & _).
      rewrite H. specialize (IH (S attempt) (Some e) st'). lia.
Qed.

Lemma attempts_fetches_once (remaining attempt : nat) (lastError : option TripItError)
    (st : State) :
  (1 <= fetchCount (trace (loop (S remaining) attempt lastError st)))%nat.
Proof.
  destruct (verdict rt attempt path (outcome world attempt)) as [r | delay e] eqn:Hv.
  - destruct (attempts_done rt client world m path payload remaining attempt
                lastError st r Hv) as (_ & H & _).
    rewrite H. lia.
  - destruct (attempts_retry rt client world m path payload remaining attempt
                lastError st delay e Hv) as (st' & _ & H & _).
    rewrite H. lia.
Qed.

(** The waits of a run are the delays of its first attempts, in order. *)
Lemma attempts_backoffs (remaining attempt : nat) (lastError : option TripItError)
    (st : State) :
  exists k, (k <= remaining)%nat
    /\ backoffs (trace (loop remaining attempt lastError st))
       = map backoffDelay (seq attempt k).
Proof.
  revert attempt lastError st.
  induction remaining as [| remaining IH]; intros attempt lastError st.
  - exists 0%nat. split; [lia | reflexivity].
  - destruct (verdict rt attempt path (outcome world attempt)) as [r | delay e] eqn:Hv.
    + destruct (attempts_done rt client world m path payload remaining attempt
                  lastError st r Hv) as (_ & _ & H & _).
      exists 0%nat. split; [lia | exact H].
    + destruct (attempts_retry rt client world m path payload remaining attempt
                  lastError st delay e Hv) as (st' & _ & _ & H & _).
      destruct (IH (S attempt) (Some e) st') as (k & Hk & Hb).
      exists (S k). split; [lia |]. rewrite H, Hb. reflexivity.
Qed.

Lemma backoffDelay_lt_succ (attempt : nat) :
  backoffDelay attempt < backoffDelay (S attempt).
Proof.
  unfold backoffDelay, BASE_DELAY_MS.
  rewrite Nat2Z.inj_succ, Z.pow_succ_r by lia.
  assert (0 < 2 ^ Z.of_nat attempt) by (apply Z.pow_pos_nonneg; lia).
  lia.
Qed.

Lemma backoff_schedule_sorted (attempt k : nat) :
  Sorted Z.lt (map backoffDelay (seq attempt k)).
Proof.
  revert attempt. induction k as [| k IH]; intros attempt; cbn.
  - constructor.
  - constructor; [apply IH |].
    destruct k; cbn; constructor. apply backoffDelay_lt_succ.
Qed.

(** A retryable outcome of an attempt the run made is followed by that
    attempt's delay. *)
Lemma attempts_wait_retryable (remaining attempt : nat) (lastError : option TripItError)
    (st : State) (i : nat) :
  (attempt <= i < attempt + fetchCount (trace (loop remaining attempt lastError st)))%nat ->
  retryable (outcome world i) = true ->
  waitAfter i (trace (loop remaining attempt lastError st)) = Some (backoffDelay i).
Proof.
  revert attempt lastError st.
  induction remaining as [| remaining IH]; intros attempt lastError st Hi Hr.
  - cbn in Hi. lia.
  - destruct (verdict rt attempt path (outcome world attempt)) as [r | delay e] eqn:Hv.
    + destruct (attempts_done rt client world m path payload remaining attempt
                  lastError st r Hv) as (_ & Hc & _).
      rewrite Hc in Hi. assert (i = attempt) by lia. subst i.
      rewrite (verdict_retryable rt path attempt _ Hr) in Hv. discriminate Hv.
    + destruct (attempts_retry rt client world m path payload remaining attempt
                  lastError st delay e Hv) as (st' & _ & Hc & _ & Hw & Hother & _).
      destruct (Nat.eq_dec i attempt) as [-> | Hne]; [exact Hw |].
      rewrite (Hother i Hne). apply IH; [| exact Hr].
      rewrite Hc in Hi. lia.
Qed.

(** An attempt whose iteration ends the call is the last step of the run. *)
Lemma attempts_stop (remaining attempt : nat) (lastError : option TripItError)
    (st : State) (i : nat) (r : Exc Value) :
  (attempt <= i < attempt + fetchCount (trace (loop remaining attempt lastError st)))%nat ->
  verdict rt i path (outcome world i) = Done r ->
  let run := loop remaining attempt lastError st in
  result run = r
  /\ waitAfter i (trace run) = None
  /\ (attempt + fetchCount (trace run) = S i)%nat
  /\ exists before request, trace run = (before ++ [Fetched i request])%list.
Proof.
  revert attempt lastError st.
  induction remaining as [| remaining IH]; intros attempt lastError st Hi Hd.
  - cbn in Hi. lia.
  - cbv zeta.
    destruct (verdict rt attempt path (outcome world attempt)) as [r' | delay e] eqn:Hv.
    + destruct (attempts_done rt client world m path payload remaining attempt
                  lastError st r' Hv) as (Hres & Hc & _ & Hw & Hlast).
      rewrite Hc in Hi. assert (i = attempt) by lia. subst i.
      rewrite Hv in Hd. injection Hd as ->.
      rewrite Hc. repeat split; [exact Hres | exact Hw | lia | exact Hlast].
    + destruct (attempts_retry rt client world m path payload remaining attempt
                  lastError st delay e Hv) as (st' & Hres & Hc & _ & _ & Hother & before & Htr).
      assert (i <> attempt) as Hne by (intros ->; rewrite Hv in Hd; discriminate Hd).
      rewrite Hc in Hi.
      destruct (IH (S attempt) (Some e) st') as (Hres' & Hw' & Hc' & before' & request' & Htr');
        [lia | exact Hd |].
      rewrite Hres, (Hother i Hne), Hc. repeat split; [exact Hres' | exact Hw' | lia |].
      exists (before ++ before')%list, request'.
      rewrite Htr, Htr', app_assoc. reflexivity.
Qed.

End RetryPolicy.

(** ** The retry policy of [request] *)

(** C3.  A logical call whose first attempt receives HTTP 401 fails with an
    [AuthenticationError], and one whose first attempt receives HTTP 404 fails
    with a [NotFoundError]: on that first attempt, which is the last step of
    the run, with no backoff wait and no further attempt. *)
Theorem request_401_404_fail_immediately
    (rt : Runtime) (client : TripItClient) (world : World)
    (m : HttpMethod) (path : string) (payload : Value) (st : State)
    (status : Z) (text : string) (json : string + Value) :
  outcome world 0 = Response status text json ->
  status = 401 \/ status = 404 ->
  let r := request rt client world m path payload st in
  (status = 401 -> result r = throw (ThrowTripIt defaultAuthenticationError))
  /\ (status = 404 -> result r = throw (ThrowTripIt (newNotFoundError "resource" path)))
  /\ (exists e, result r = throw (ThrowTripIt e)
        /\ (status = 401 -> errorClass e = AuthenticationErrorClass)
        /\ (status = 404 -> errorClass e = NotFoundErrorClass))
  /\ fetchCount (trace r) = 1%nat
  /\ backoffs (trace r) = []
  /\ exists request, trace r = (snd (throttle st) ++ [Fetched 0 request])%list.
Proof.
  intros Ho Hs. cbv zeta. unfold request, MAX_RETRIES.
  rewrite attempts_step. cbv zeta. rewrite Ho.
  destruct Hs as [-> | ->].
  - rewrite verdict_401. cbn [result trace].
    rewrite fetchCount_throttle, backoffs_throttle.
    repeat split; try reflexivity; try discriminate; eauto.
    eexists. repeat split; try reflexivity; discriminate.
  - rewrite verdict_404. cbn [result trace].
    rewrite fetchCount_throttle, backoffs_throttle.
    repeat split; try reflexivity; try discriminate; eauto.
    eexists. repeat split; try reflexivity; discriminate.
Qed.

(** C2, as the program has it.  For every logical call: at most [MAX_RETRIES]
    attempts are made; every attempt [i] that ends in a retryable
    classification (429, 500 and above, no response) is directly followed by
    a wait of [BASE_DELAY_MS * 2^i] ms, the last attempt included; the waits of
    the call are the delays of attempts 0, 1, ... in order, hence strictly
    increasing; and an attempt that receives 401 or 404 is the last step of
    the call, with no wait behind it. *)
Theorem request_backoff_schedule
    (rt : Runtime) (client : TripItClient) (world : World)
    (m : HttpMethod) (path : string) (payload : Value) (st : State) :
  let tr := trace (request rt client world m path payload st) in
  (fetchCount tr <= MAX_RETRIES)%nat
  /\ (forall i, (i < fetchCount tr)%nat -> retryable (outcome world i) = true ->
        waitAfter i tr = Some (BASE_DELAY_MS * 2 ^ Z.of_nat i))
  /\ (exists k, (k <= MAX_RETRIES)%nat
        /\ backoffs tr = map (fun i => BASE_DELAY_MS * 2 ^ Z.of_nat i) (seq 0 k))
  /\ Sorted Z.lt (backoffs tr)
  /\ (forall i status text json,
        (i < fetchCount tr)%nat ->
        outcome world i = Response status text json ->
        status = 401 \/ status = 404 ->
        waitAfter i tr = None
        /\ fetchCount tr = S i
        /\ exists before request, tr = (before ++ [Fetched i request])%list).
Proof.
  cbv zeta. unfold request.
  split; [apply attempts_fetchCount_le |].
  split.
  { intros i Hi Hr.
    apply (attempts_wait_retryable rt client world m path payload); [lia | exact Hr]. }
  destruct (attempts_backoffs rt client world m path payload MAX_RETRIES 0 None st)
    as (k & Hk & Hb).
  split; [exists k; split; [exact Hk | exact Hb] |].
  split; [rewrite Hb; apply backoff_schedule_sorted |].
  intros i status text json Hi Ho Hs.
  assert (exists r, verdict rt i path (outcome world i) = Done r) as [r Hd].
  { rewrite Ho. destruct Hs as [-> | ->]; eexists; reflexivity. }
  destruct (attempts_stop rt client world m path payload MAX_RETRIES 0 None st i r)
    as (_ & Hw & Hc & Hlast); [lia | exact Hd |].
  repeat split; [exact Hw | exact Hc | exact Hlast].
Qed.

(** C2, as worded, fails: when every attempt answers HTTP 500 the call waits
    4000 ms after its third and last attempt before it fails. *)
Lemma request_waits_after_final_failure : ~ NoWaitAfterFinalFailure.
Proof.
  intros H.
  specialize (H sampleRuntime sampleClient (always (Response 500 "" (inl "")))
                GET "/get/profile" VUndefined startState).
  cbv zeta in H.
  assert (Some 4000 = None) as Habs; [| discriminate Habs].
  apply H. eexists. vm_compute. reflexivity.
Qed.

(** HTTP 503, then no response, then HTTP 401: waits of 1000 and 2000 ms after
    the first two attempts, none after the third, which ends the call. *)
Lemma request_backoff_schedule_witness :
  let world := answering [Response 503 "" (inl ""); NoResponse "TypeError" "fetch failed"]
                 (Response 401 "" (inl "")) in
  let tr := trace (request sampleRuntime sampleClient world GET "/list/trip" VUndefined
                     startState) in
  waitAfter 0 tr = Some 1000
  /\ waitAfter 1 tr = Some 2000
  /\ waitAfter 2 tr = None
  /\ fetchCount tr = 3%nat
  /\ Sorted Z.lt (backoffs tr).
Proof.
  cbv zeta.
  destruct (request_backoff_schedule sampleRuntime sampleClient
              (answering [Response 503 "" (inl ""); NoResponse "TypeError" "fetch failed"]
                 (Response 401 "" (inl "")))
              GET "/list/trip" VUndefined startState)
    as (_ & Hwait & _ & Hsorted & Hstop).
  split; [apply (Hwait 0%nat); [vm_compute; lia | reflexivity] |].
  split; [apply (Hwait 1%nat); [vm_compute; lia | reflexivity] |].
  destruct (Hstop 2%nat 401 "" (inl "")) as (Hnone & Hcount & _);
    [vm_compute; lia | reflexivity | left; reflexivity |].
  split; [exact Hnone |]. split; [exact Hcount | exact Hsorted].
Defined.

(** C7.  When all [MAX_RETRIES] attempts end in retryable failures, the call
    makes exactly [MAX_RETRIES] attempts and fails with the error recorded for
    the last of them; a loop that ends with no error recorded fails with the
    generic exhaustion error. *)
Theorem request_exhausted_throws_last_error
    (rt : Runtime) (client : TripItClient) (world : World)
    (m : HttpMethod) (path : string) (payload : Value) (st : State) :
  (forall i, (i < MAX_RETRIES)%nat -> retryable (outcome world i) = true) ->
  let r := request rt client world m path payload st in
  result r = throw (ThrowTripIt (retryError rt (outcome world (Nat.pred MAX_RETRIES))))
  /\ fetchCount (trace r) = MAX_RETRIES
  /\ (forall attempt st',
        result (attempts rt client world m path payload 0 attempt None st')
        = throw (ThrowTripIt (newTripItError 0 "Request failed after retries")))
  /\ (forall attempt e st',
        result (attempts rt client world m path payload 0 attempt (Some e) st')
        = throw (ThrowTripIt e)).
Proof.
  unfold MAX_RETRIES. intros Hall. cbv zeta. unfold request, MAX_RETRIES.
  pose proof (verdict_retryable rt path 0 _ (Hall 0%nat ltac:(lia))) as H0.
  pose proof (verdict_retryable rt path 1 _ (Hall 1%nat ltac:(lia))) as H1.
  pose proof (verdict_retryable rt path 2 _ (Hall 2%nat ltac:(lia))) as H2.
  destruct (attempts_retry rt client world m path payload 2 0 None st _ _ H0)
    as (st1 & R0 & C0 & _).
  destruct (attempts_retry rt client world m path payload 1 1
              (Some (retryError rt (outcome world 0))) st1 _ _ H1)
    as (st2 & R1 & C1 & _).
  destruct (attempts_retry rt client world m path payload 0 2
              (Some (retryError rt (outcome world 1))) st2 _ _ H2)
    as (st3 & R2 & C2 & _).
  cbv zeta in R0, C0, R1, C1, R2, C2.
  rewrite R0, R1, R2, C0, C1, C2. cbn.
  repeat split; reflexivity.
Qed.

(** A status that is none of 401, 404, 429, 5xx and not a success is thrown as
    a [TripItError] inside the [try] block, and the [catch] of the same block
    records it and backs off like a network error. *)
Lemma verdict_other_status (rt : Runtime) (attempt : nat) (path : string)
    (status : Z) (text : string) (json : string + Value) :
  status <> 401 -> status <> 404 -> status <> 429 -> status < 500 -> ok status = false ->
  verdict rt attempt path (Response status text json)
  = Retry (backoffDelay attempt) (newTripItError status text).
Proof.
  intros H401 H404 H429 H500 Hok. unfold verdict, tryBlock.
  apply Z.eqb_neq in H401, H404, H429. rewrite H401, H404, H429.
  assert ((status >=? 500) = false) as -> by (rewrite Z.geb_leb; apply Z.leb_gt; lia).
  rewrite Hok. reflexivity.
Qed.

(** C1 (what the program does instead).  When the first attempt receives a
    non-success status other than 401, 404, 429 and 5xx, the call does not
    fail on that attempt: it waits [BASE_DELAY_MS], makes a second attempt,
    and returns that attempt's payload if it succeeds; only if it and the
    third are also refused does the [TripItError] with the status and the raw
    body reach the caller, after three waits. *)
Theorem request_retries_other_status
    (rt : Runtime) (client : TripItClient) (world : World)
    (m : HttpMethod) (path : string) (payload : Value) (st : State)
    (status : Z) (text : string) (json : string + Value) :
  outcome world 0 = Response status text json ->
  status <> 401 -> status <> 404 -> status <> 429 -> status < 500 -> ok status = false ->
  let r := request rt client world m path payload st in
  waitAfter 0 (trace r) = Some BASE_DELAY_MS
  /\ (2 <= fetchCount (trace r))%nat
  /\ (forall text' v, outcome world 1 = Response 200 text' (inr v) -> result r = ret v)
  /\ (outcome world 1 = Response status text json ->
      outcome world 2 = Response status text json ->
      result r = throw (ThrowTripIt (newTripItError status text))
      /\ backoffs (trace r) = [1000; 2000; 4000]).
Proof.
  intros Ho H401 H404 H429 H500 Hok. cbv zeta. unfold request, MAX_RETRIES.
  pose proof (verdict_other_status rt 0 path status text json H401 H404 H429 H500 Hok) as H0.
  rewrite <- Ho in H0.
  destruct (attempts_retry rt client world m path payload 2 0 None st _ _ H0)
    as (st1 & R0 & C0 & B0 & W0 & _).
  cbv zeta in R0, C0, B0, W0.
  split; [exact W0 |].
  split.
  { rewrite C0.
    pose proof (attempts_fetches_once rt client world m path payload 1 1
                  (Some (newTripItError status text)) st1).
    lia. }
  split.
  - intros text' v H1. rewrite R0.
    assert (verdict rt 1 path (outcome world 1) = Done (ret v)) as Hd
      by (rewrite H1; reflexivity).
    now destruct (attempts_done rt client world m path payload 1 1
                    (Some (newTripItError status text)) st1 _ Hd) as (-> & _).
  - intros H1 H2.
    pose proof (verdict_other_status rt 1 path status text json H401 H404 H429 H500 Hok) as V1.
    pose proof (verdict_other_status rt 2 path status text json H401 H404 H429 H500 Hok) as V2.
    rewrite <- H1 in V1. rewrite <- H2 in V2.
    destruct (attempts_retry rt client world m path payload 1 1
                (Some (newTripItError status text)) st1 _ _ V1)
      as (st2 & R1 & _ & B1 & _).
    destruct (attempts_retry rt client world m path payload 0 2
                (Some (newTripItError status text)) st2 _ _ V2)
      as (st3 & R2 & _ & B2 & _).
    cbv zeta in R1, B1, R2, B2.
    rewrite R0, R1, R2, B0, B1, B2. cbn. split; reflexivity.
Qed.

(** HTTP 400 on the first attempt, HTTP 200 on the second: the call succeeds
    after one wait of a second. *)
Lemma request_retries_other_status_witness :
  let world := answering [Response 400 "Bad Request" (inl "Unexpected token")]
                 (Response 200 "{}" (inr (VObj []))) in
  let r := request sampleRuntime sampleClient world GET "/get/profile" VUndefined startState in
  result r = ret (VObj [])
  /\ waitAfter 0 (trace r) = Some 1000
  /\ (2 <= fetchCount (trace r))%nat.
Proof.
  cbv zeta.
  destruct (request_retries_other_status sampleRuntime sampleClient
              (answering [Response 400 "Bad Request" (inl "Unexpected token")]
                 (Response 200 "{}" (inr (VObj []))))
              GET "/get/profile" VUndefined startState
              400 "Bad Request" (inl "Unexpected token"))
    as (Hw & Hc & Hok & _);
    [reflexivity | lia | lia | lia | lia | reflexivity |].
  split; [apply (Hok "{}"); reflexivity |].
  split; [exact Hw | exact Hc].
Defined.

Lemma request_401_404_witness :
  let run401 := request sampleRuntime sampleClient (always (Response 401 "" (inl "")))
                  GET "/get/profile" VUndefined startState in
  let run404 := request sampleRuntime sampleClient (always (Response 404 "" (inl "")))
                  GET "/get/trip/id/7" VUndefined startState in
  (result run401 = throw (ThrowTripIt defaultAuthenticationError)
   /\ fetchCount (trace run401) = 1%nat /\ backoffs (trace run401) = [])
  /\ (result run404 = throw (ThrowTripIt (newNotFoundError "resource" "/get/trip/id/7"))
      /\ fetchCount (trace run404) = 1%nat /\ backoffs (trace run404) = []).
Proof.
  cbv zeta. split.
  - destruct (request_401_404_fail_immediately sampleRuntime sampleClient
                (always (Response 401 "" (inl ""))) GET "/get/profile" VUndefined
                startState 401 "" (inl ""))
      as (H & _ & _ & Hc & Hb & _); [reflexivity | left; reflexivity |].
    split; [apply H; reflexivity | split; [exact Hc | exact Hb]].
  - destruct (request_401_404_fail_immediately sampleRuntime sampleClient
                (always (Response 404 "" (inl ""))) GET "/get/trip/id/7" VUndefined
                startState 404 "" (inl ""))
      as (_ & H & _ & Hc & Hb & _); [reflexivity | right; reflexivity |].
    split; [apply H; reflexivity | split; [exact Hc | exact Hb]].
Defined.

Lemma request_exhausted_witness :
  let r := request sampleRuntime sampleClient
             (answering [Response 503 "" (inl ""); NoResponse "TypeError" "fetch failed"]
                (Response 429 "" (inl "")))
             GET "/list/trip" VUndefined startState in
  result r = throw (ThrowTripIt (newTripItError 429 "Server error: 429"))
  /\ fetchCount (trace r) = 3%nat.
Proof.
  cbv zeta.
  destruct (request_exhausted_throws_last_error sampleRuntime sampleClient
              (answering [Response 503 "" (inl ""); NoResponse "TypeError" "fetch failed"]
                 (Response 429 "" (inl "")))
              GET "/list/trip" VUndefined startState)
    as (Hr & Hc & _).
  - intros i Hi. unfold MAX_RETRIES in Hi.
    destruct i as [| [| [| i]]]; [reflexivity | reflexivity | reflexivity | lia].
  - split; [exact Hr | exact Hc].
Defined.

(** ** The dispatcher *)

Section DispatcherProperties.

Context (toolCall : Value -> Value -> Exc ToolResult).

(** The name and the arguments a [tools/call] request hands to the router. *)
#[local] Abbreviation nameOf request := (getPropOpt (params request) "name").
#[local] Abbreviation argsOf request :=
  (coalesce (getPropOpt (params request) "arguments") (VObj [])).





(** C5.  The response of the dispatcher, success or error, carries the id of
    the request unchanged; in particular [null] for [null]. *)
Theorem handleMCPRequest_echoes_id (request : MCPRequest) :
  responseId (response (handleMCPRequest toolCall request)) = id request.
Proof.
  unfold handleMCPRequest, dispatchBody.
  repeat match goal with
         | |- context [if ?b then _ else _] => destruct b
         end;
    cbn [response tryCatch ret responseId fst snd]; try reflexivity.
  destruct (toolCall _ _); reflexivity.
Qed.

(** C9, as the program has it.  A [tools/call] request whose [params] lack a
    name, or carry a falsy one such as the empty string, gets the error
    -32602 and the router is not called; one whose name is truthy makes
    exactly one call of the router, with that name and the arguments
    ([{}] when absent), and a result the router returns is the method
    result. *)
Theorem handleMCPRequest_tools_call (request : MCPRequest) :
  method request = "tools/call" ->
  let d := handleMCPRequest toolCall request in
  (truthy (nameOf request) = false ->
     response d = ErrorResponse (id request) (-32602) "Missing tool name"
     /\ invocations d = [])
  /\ (truthy (nameOf request) = true ->
        invocations d = [(nameOf request, argsOf request)]
        /\ forall r, toolCall (nameOf request) (argsOf request) = ret r ->
             response d = ResultResponse (id request) (ToolCallResult r)).
Proof.
  intros Hm. cbv zeta. unfold handleMCPRequest, dispatchBody. rewrite Hm. cbn [String.eqb].
  change ("tools/call" =? "initialize")%string with false.
  change ("tools/call" =? "initialized")%string with false.
  change ("tools/call" =? "tools/list")%string with false.
  change ("tools/call" =? "tools/call")%string with true.
  cbv iota. split; intros Hn; rewrite Hn; cbn [negb].
  - split; reflexivity.
  - split; [reflexivity |]. intros r Hr. rewrite Hr. reflexivity.
Qed.

End DispatcherProperties.

(** C9, as worded, fails: the empty name is present in [params], and the
    request is answered with -32602 without a call of the router. *)
Lemma present_empty_name_is_refused : ~ PresentNameIsDelegated.
Proof.
  intros H.
  specialize (H (fun _ _ => ret (textResult "done"))
                {| id := VNum 7; method := "tools/call";
                   params := VObj [("name", VStr "")] |}
                (VStr "") (textResult "done")
                eq_refl eq_refl ltac:(discriminate) eq_refl).
  discriminate H.
Qed.

(** The default case on a method that is not a string. *)
Lemma defaultCase_eq (rt : Runtime) (rid method : Value) :
  defaultCase rt rid method
  = if convertible method
    then ErrorResponse rid (-32601) ("Method not found: " ++ toString rt method)
    else ErrorResponse rid (-32603) "Cannot convert object to primitive value".
Proof. unfold defaultCase, stringOf. destruct (convertible method); reflexivity. Qed.




Lemma handleMCPRequest_tools_call_witness :
  let missing := {| id := VNum 7; method := "tools/call"; params := VObj [] |} in
  let present :=
    {| id := VNum 3; method := "tools/call";
       params := VObj [("name", VStr "tripit_list_trips");
                       ("arguments", VObj [("include_past", VBool true)])] |} in
  let toolCall := fun (_ _ : Value) => ret (textResult "[]") in
  (response (handleMCPRequest toolCall missing)
   = ErrorResponse (VNum 7) (-32602) "Missing tool name"
   /\ invocations (handleMCPRequest toolCall missing) = [])
  /\ response (handleMCPRequest toolCall present)
     = ResultResponse (VNum 3) (ToolCallResult (textResult "[]")).
Proof.
  cbv zeta. split.
  - apply (handleMCPRequest_tools_call (fun _ _ => ret (textResult "[]"))
             {| id := VNum 7; method := "tools/call"; params := VObj [] |} eq_refl).
    reflexivity.
  - apply (handleMCPRequest_tools_call (fun _ _ => ret (textResult "[]"))
             {| id := VNum 3; method := "tools/call";
                params := VObj [("name", VStr "tripit_list_trips");
                                ("arguments", VObj [("include_past", VBool true)])] |}
             eq_refl); reflexivity.
Defined.

(** ** The error boundary of the tools *)

Lemma string_app_assoc (a b c : string) : ((a ++ b) ++ c)%string = (a ++ b ++ c)%string.
Proof. induction a as [| ch a IH]; cbn; [reflexivity | now rewrite IH]. Qed.

Lemma notFound_message_contains_id (resource rid : string) :
  Contains (message (newNotFoundError resource rid)) rid.
Proof.
  exists ("TripIt API error (404): " ++ resource ++ " with ID ")%string, " not found"%string.
  unfold message, newNotFoundError. cbn [statusCode details].
  change (numberToString 404) with "404"%string.
  rewrite !string_app_assoc. reflexivity.
Qed.

Lemma getProp_defined (v : Value) (k : string) :
  nullish v = false -> getProp v k = ret (getPropOpt v k).
Proof. destruct v; intros H; try discriminate H; reflexivity. Qed.

Lemma pick_defined (args : Value) (keys : list (string * string)) :
  nullish args = false ->
  pick args keys = ret (map (fun fk => (fst fk, getPropOpt args (snd fk))) keys).
Proof.
  intros H. induction keys as [| [field key] keys IH]; cbn [pick map fst snd].
  - reflexivity.
  - rewrite (getProp_defined _ _ H), IH. reflexivity.
Qed.

Lemma destructure_defined (k source : string) (v : Value) :
  nullish v = false -> destructure k source v = ret (getPropOpt v k).
Proof. destruct v; intros H; try discriminate H; reflexivity. Qed.

Lemma stringOf_convertible (rt : Runtime) (v : Value) :
  convertible v = true -> stringOf rt v = ret (toString rt v).
Proof. intros H. unfold stringOf. now rewrite H. Qed.

Lemma stringOf_unconvertible (rt : Runtime) (v : Value) :
  convertible v = false -> stringOf rt v = throw cannotConvert.
Proof. intros H. unfold stringOf. now rewrite H. Qed.

(** Unfold a call of a registered tool down to the calls of the client. *)
Ltac enter_tool H :=
  unfold handleToolCall, handleTripTool, handleObjectTool, handleProTool,
    tripToolBody, objectToolBody, proToolBody;
  cbn [hasProperty member existsb tripTools objectTools proTools
       objectPrototypeProperties String.eqb Ascii.eqb Bool.eqb orb];
  rewrite ?(pick_defined _ _ H), ?(getProp_defined _ _ H), ?(destructure_defined _ _ _ H);
  cbn [bind ret map fst snd].

(** With a client that rejects, a registered tool returns the translation of
    the client's error, unless the date of [tripit_list_trips] has no text. *)
Lemma rejecting_tool_call (rt : Runtime) (error : Thrown) (name : string) (args : Value) :
  In name getToolDefinitions ->
  nullish args = false ->
  (name = "tripit_list_trips" ->
   truthy (getPropOpt args "modified_since") = true ->
   convertible (getPropOpt args "modified_since") = true) ->
  handleToolCall rt (rejectingClient error) name args = handleTripItError error.
Proof.
  intros Hin H Hdate. cbn in Hin.
  destruct Hin as [<- | Hin].
  { enter_tool H. unfold epochSeconds.
    destruct (truthy (getPropOpt args "modified_since")) eqn:Ht; [| reflexivity].
    rewrite (stringOf_convertible rt _ (Hdate eq_refl eq_refl)). reflexivity. }
  repeat (destruct Hin as [<- | Hin]; [enter_tool H; reflexivity |]).
  contradiction.
Qed.

(** Whatever the arguments are, the result is the translation of the client's
    error or that of a [TypeError] raised before the client was called. *)
Lemma rejecting_tool_call_any (rt : Runtime) (error : Thrown) (name : string) (args : Value) :
  In name getToolDefinitions ->
  handleToolCall rt (rejectingClient error) name args = handleTripItError error
  \/ handleToolCall rt (rejectingClient error) name args
     = errorResult "An unexpected error occurred. Please try again.".
Proof.
  intros Hin.
  destruct (nullish args) eqn:H.
  - cbn in Hin.
    repeat (destruct Hin as [<- | Hin];
            [destruct args; try discriminate H; cbn; auto |]).
    contradiction.
  - destruct (truthy (getPropOpt args "modified_since")) eqn:Ht;
      [destruct (convertible (getPropOpt args "modified_since")) eqn:Hc |].
    + left. apply rejecting_tool_call; auto.
    + cbn in Hin. destruct Hin as [<- | Hin].
      * right. enter_tool H. unfold epochSeconds.
        rewrite Ht, (stringOf_unconvertible rt _ Hc). reflexivity.
      * left. apply rejecting_tool_call; [cbn; auto | exact H |].
        intros ->. exfalso.
        repeat (destruct Hin as [Hin | Hin]; [discriminate Hin |]). exact Hin.
    + left. apply rejecting_tool_call; auto. intros _ Ht'. congruence.
Qed.

(** C6, as the program has it.  Whatever value reaches the error boundary of
    the tools, [handleTripItError] returns a result with exactly one text
    block and [isError: true]; for an error with status 401 the text tells
    the user to re-authorize; for a [NotFoundError] the text contains the
    identifier of the resource; for a value that is not a [TripItError] it is
    the generic "unexpected error" message.  The handlers return this result
    instead of throwing: when the [try] block of a handler throws [error],
    the handler returns [handleTripItError error]; so [handleToolCall]
    returns a result for every name that has a text (every string is one)
    and throws for a name that has none; and for a registered tool whose
    client rejects with [error] the result is [handleTripItError error], or
    the generic message when a [TypeError] was raised before the client was
    called. *)
Theorem handleTripItError_uniform (error : Thrown) :
  (isError (handleTripItError error) = Some true
   /\ exists text, content (handleTripItError error) = [text])
  /\ (forall e, error = ThrowTripIt e -> statusCode e = 401 ->
        content (handleTripItError error)
        = ["TripIt authentication expired. Please re-authorize at /oauth/start"])
  /\ (forall resource rid, error = ThrowTripIt (newNotFoundError resource rid) ->
        exists text, content (handleTripItError error) = [text] /\ Contains text rid)
  /\ (instanceofTripItError error = false ->
        content (handleTripItError error)
        = ["An unexpected error occurred. Please try again."])
  /\ (forall rt client name args,
        (tripToolBody rt client name args = throw error ->
           handleTripTool rt client name args = handleTripItError error)
        /\ (objectToolBody rt client name args = throw error ->
              handleObjectTool rt client name args = handleTripItError error)
        /\ (proToolBody rt client name args = throw error ->
              handleProTool rt client name args = handleTripItError error))
  /\ (forall rt client name args,
        convertible name = true ->
        exists r, routeToolCall rt client name args = ret r)
  /\ (forall rt name args,
        In name getToolDefinitions -> nullish args = false ->
        (name = "tripit_list_trips" ->
         truthy (getPropOpt args "modified_since") = true ->
         convertible (getPropOpt args "modified_since") = true) ->
        handleToolCall rt (rejectingClient error) name args = handleTripItError error)
  /\ (forall rt name args,
        In name getToolDefinitions ->
        handleToolCall rt (rejectingClient error) name args = handleTripItError error
        \/ handleToolCall rt (rejectingClient error) name args
           = errorResult "An unexpected error occurred. Please try again.")
  /\ (forall rt client name args,
        convertible name = false ->
        routeToolCall rt client name args = throw cannotConvert).
Proof.
  split; [| split; [| split; [| split; [| split; [| split; [| split; [| split]]]]]]].
  - unfold handleTripItError.
    destruct error as [e | name msg | v]; [| cbn; eauto | cbn; eauto].
    destruct (statusCode e =? 401); [cbn; eauto |].
    destruct (statusCode e =? 404); [cbn; eauto |].
    destruct (statusCode e =? 403); cbn; eauto.
  - intros e -> H. unfold handleTripItError. rewrite H. reflexivity.
  - intros resource rid ->. eexists. split; [reflexivity |].
    apply notFound_message_contains_id.
  - destruct error as [e | name msg | v]; [discriminate | reflexivity | reflexivity].
  - intros rt client name args.
    unfold handleTripTool, handleObjectTool, handleProTool.
    repeat split; intros ->; reflexivity.
  - intros rt client name args Hc. unfold routeToolCall.
    destruct name; try (rewrite (stringOf_convertible rt _ Hc)); eexists; reflexivity.
  - intros rt name args. apply rejecting_tool_call.
  - intros rt name args. apply rejecting_tool_call_any.
  - intros rt client name args Hc. unfold routeToolCall.
    destruct name; try discriminate Hc; rewrite (stringOf_unconvertible rt _ Hc);
      reflexivity.
Qed.

(** C6, as worded, fails: for a tool name that has no text, the object
    [{toString: 1}] for instance, [handleToolCall] throws a [TypeError] at
    [name in tripTools], before any handler and its [try] is entered. *)
Lemma handleToolCall_throws_without_text : ~ ToolCallNeverThrows.
Proof.
  intros H.
  destruct (H sampleRuntime mockClient (VObj [("toString", VNum 1)]) (VObj [])
              eq_refl eq_refl) as [r Hr].
  discriminate Hr.
Qed.

(** An expired token, a missing trip and a thrown string at the boundary. *)
Lemma handleTripItError_uniform_witness :
  handleTripItError (ThrowTripIt defaultAuthenticationError)
  = errorResult "TripIt authentication expired. Please re-authorize at /oauth/start"
  /\ handleToolCall sampleRuntime
       (rejectingClient (ThrowTripIt (newNotFoundError "resource" "/get/trip/id/9")))
       "tripit_get_trip" (VObj [("trip_id", VStr "9")])
     = errorResult "TripIt API error (404): resource with ID /get/trip/id/9 not found"
  /\ content (handleTripItError (ThrowValue (VStr "string error")))
     = ["An unexpected error occurred. Please try again."].
Proof.
  split; [reflexivity |]. split.
  - destruct (handleTripItError_uniform
                (ThrowTripIt (newNotFoundError "resource" "/get/trip/id/9")))
      as (_ & _ & _ & _ & _ & _ & Hcall & _).
    rewrite (Hcall sampleRuntime "tripit_get_trip" (VObj [("trip_id", VStr "9")]));
      [reflexivity | cbn; tauto | reflexivity | discriminate].
  - destruct (handleTripItError_uniform (ThrowValue (VStr "string error")))
      as (_ & _ & _ & Hgeneric & _).
    apply Hgeneric. reflexivity.
Defined.

(** ** Object creation *)

Lemma lookup_assign_same (k : string) (v : Value) (props : list (string * Value)) :
  lookup k (assign k v props) = Some v.
Proof.
  induction props as [| [k' v'] props IH]; cbn.
  - now rewrite String.eqb_refl.
  - destruct (k =? k')%string eqn:E; cbn; rewrite ?String.eqb_refl, ?E; auto.
Qed.

Lemma lookup_assign_other (k k0 : string) (v : Value) (props : list (string * Value)) :
  k0 <> k -> lookup k0 (assign k v props) = lookup k0 props.
Proof.
  intros Hne. apply String.eqb_neq in Hne.
  induction props as [| [k' v'] props IH]; cbn.
  - now rewrite Hne.
  - destruct (k =? k')%string eqn:E; cbn.
    + apply String.eqb_eq in E. subst k'. now rewrite Hne.
    + now rewrite IH.
Qed.

(** Every [fetch] of a logical call sends the request built from the same
    method, path and payload. *)
Lemma attempts_requests (rt : Runtime) (client : TripItClient) (world : World)
    (m : HttpMethod) (path : string) (payload : Value)
    (remaining attempt : nat) (lastError : option TripItError) (st : State)
    (a : nat) (request : HttpRequest) :
  In (Fetched a request) (trace (attempts rt client world m path payload remaining
                                   attempt lastError st)) ->
  exists st', request = buildRequest rt client world a m path payload st'.
Proof.
  revert attempt lastError st.
  induction remaining as [| remaining IH]; intros attempt lastError st Hin.
  - contradiction.
  - rewrite attempts_step in Hin. cbv zeta in Hin.
    assert (forall tr, In (Fetched a request) (snd (throttle st) ++ tr)%list ->
                       In (Fetched a request) tr) as Hskip.
    { intros tr H. apply in_app_or in H. destruct H as [H | H]; [| exact H].
      destruct (throttle_events st) as [E | [ms E]]; rewrite E in H; cbn in H;
        [contradiction | destruct H as [H | []]; discriminate H]. }
    destruct (verdict rt attempt path (outcome world attempt)) as [r | delay e].
    + cbn [trace] in Hin. apply Hskip in Hin.
      destruct Hin as [H | []]. injection H as <- <-. eauto.
    + cbn [trace prepend] in Hin. rewrite <- app_assoc in Hin. apply Hskip in Hin.
      destruct Hin as [H | [H | Hin]]; [injection H as <- <-; eauto | discriminate H |].
      exact (IH _ _ _ Hin).
Qed.

(** The members [typeMap] inherits are found by [typeMap[s]] too: for such a
    name the key is neither a table entry nor the capitalised name. *)
Lemma capitalize_inherited_member (rt : Runtime) :
  capitalize rt "constructor" = inheritedToString rt "constructor".
Proof. reflexivity. Qed.

(** C10, as the program has it.  The table has twelve entries; for a type of
    the table the key is the table's entry, and for a type that is neither in
    the table nor the name of a member inherited from [Object.prototype] it is
    the type with its first character uppercased: a first letter [a] to [z]
    becomes [A] to [Z], any other ASCII character stays, and the rest of the
    type is kept as it is.  [createObject] is a POST
    to [/create]: every [fetch] of the call, and there is at least one, sends
    the payload that wraps the data under the key as the single JSON form
    field.  A truthy [tripId] is stored as [trip_id] in that same data object
    (its other properties are kept); with a falsy one, such as the empty
    string or none, the data is sent as it is. *)
Theorem createObject_payload
    (rt : Runtime) (client : TripItClient) (world : World)
    (type : string) (data : list (string * Value)) (tripId : Value) (st : State) :
  let key := capitalize rt type in
  let sent := dataAfterCreate data tripId in
  let r := createObject rt client world type data tripId st in
  List.length typeMap = 12%nat
  /\ (forall mapped, In (type, mapped) typeMap -> key = mapped)
  /\ (typeMapGet type typeMap = None ->
      member type objectPrototypeProperties = false ->
      key = upperFirst rt type
      /\ (type = "" -> key = "")
      /\ forall c rest, type = String c rest -> isAscii c = true ->
           key = String (toUpperCase c) rest
           /\ (toUpperCase c = c
               \/ ((97 <= nat_of_ascii c <= 122)%nat
                   /\ nat_of_ascii (toUpperCase c) = (nat_of_ascii c - 32)%nat)))
  /\ r = request rt client world POST "/create" (VObj [(key, VObj sent)]) st
  /\ (truthy tripId = true ->
      lookup "trip_id" sent = Some tripId
      /\ forall k, k <> "trip_id" -> lookup k sent = lookup k data)
  /\ (truthy tripId = false -> sent = data)
  /\ (1 <= fetchCount (trace r))%nat
  /\ (forall attempt request, In (Fetched attempt request) (trace r) ->
        httpMethod request = POST
        /\ url request = "https://api.tripit.com/v1/create"
        /\ body request
           = Some ("format=json&json="
                     ++ encodeURIComponent rt (stringify rt (VObj [(key, VObj sent)])))).
Proof.
  cbv zeta.
  split; [reflexivity |].
  split.
  { intros mapped Hin. cbn in Hin.
    repeat (destruct Hin as [H | Hin]; [injection H as <- <-; reflexivity |]).
    contradiction. }
  split.
  { intros Hnone Hmember. unfold capitalize. rewrite Hnone, Hmember.
    split; [reflexivity |]. split; [intros ->; reflexivity |].
    intros c rest -> Hc. cbn [upperFirst]. rewrite Hc. split; [reflexivity |].
    unfold toUpperCase.
    destruct ((97 <=? nat_of_ascii c)%nat && (nat_of_ascii c <=? 122)%nat) eqn:E;
      [right | left; reflexivity].
    apply andb_true_iff in E. destruct E as [E1 E2].
    apply Nat.leb_le in E1, E2. split; [lia |].
    apply nat_ascii_embedding. lia. }
  split; [reflexivity |].
  split.
  { intros Ht. unfold dataAfterCreate. rewrite Ht.
    split; [apply lookup_assign_same |].
    intros k Hk. now apply lookup_assign_other. }
  split.
  { intros Ht. unfold dataAfterCreate. now rewrite Ht. }
  split.
  { unfold createObject, request, MAX_RETRIES. apply attempts_fetches_once. }
  intros a req Hin. unfold createObject, request in Hin.
  apply attempts_requests in Hin. destruct Hin as [st' ->].
  repeat split.
Qed.

(** A flight for trip 42, and a type outside the table. *)
Lemma createObject_payload_witness :
  capitalize sampleRuntime "air" = "AirObject"
  /\ capitalize sampleRuntime "ferry" = "Ferry"
  /\ lookup "trip_id" (dataAfterCreate [("Segment", VArr [])] (VStr "42")) = Some (VStr "42")
  /\ dataAfterCreate [("Segment", VArr [])] (VStr "") = [("Segment", VArr [])].
Proof.
  destruct (createObject_payload sampleRuntime sampleClient
              (always (Response 200 "{}" (inr (VObj []))))
              "air" [("Segment", VArr [])] (VStr "42") startState)
    as (_ & Hkey & _ & _ & Htrip & _).
  destruct (createObject_payload sampleRuntime sampleClient
              (always (Response 200 "{}" (inr (VObj []))))
              "ferry" [("Segment", VArr [])] (VStr "") startState)
    as (_ & _ & Hfallback & _ & _ & Hsame & _).
  split; [apply Hkey; left; reflexivity |].
  split; [apply Hfallback; reflexivity |].
  split; [apply Htrip; reflexivity | apply Hsame; reflexivity].
Defined.

(** C10, as worded, fails twice: the empty string is a supplied [tripId], and
    no [trip_id] is stored for it; and ["constructor"] is outside the table,
    yet [typeMap["constructor"]] is the inherited constructor, not undefined,
    so the key is its text and not ["Constructor"]. *)
Lemma createObject_claim_fails :
  ~ TripIdInsertedWhenSupplied /\ ~ FallbackKeyIsCapitalised.
Proof.
  split; intros H.
  - specialize (H sampleRuntime "air" "AirObject" [] (VStr "")
                  ltac:(left; reflexivity) ltac:(discriminate)).
    discriminate H.
  - specialize (H sampleRuntime "constructor" eq_refl).
    discriminate H.
Qed.

(** ** Scenarios of the test suite and of the specification *)

Example ping_scenario :
  response (handleMCPRequest (routeToolCall sampleRuntime mockClient)
              {| id := VNum 9; method := "ping"; params := VUndefined |})
  = ResultResponse (VNum 9) EmptyResult.
Proof. reflexivity. Qed.

Example unknown_method_scenario :
  response (handleMCPRequest (routeToolCall sampleRuntime mockClient)
              {| id := VNum 8; method := "unknown/method"; params := VUndefined |})
  = ErrorResponse (VNum 8) (-32601) "Method not found: unknown/method".
Proof. reflexivity. Qed.

Example list_trips_scenario :
  handleMCPRequest (routeToolCall sampleRuntime mockClient)
    {| id := VNum 3; method := "tools/call";
       params := VObj [("name", VStr "tripit_list_trips");
                       ("arguments", VObj [("include_past", VBool true)])] |}
  = {| response :=
         ResultResponse (VNum 3)
           (ToolCallResult (textResult (render (VObj [("Trip", VArr [])]))));
       invocations :=
         [(VStr "tripit_list_trips", VObj [("include_past", VBool true)])] |}.
Proof. reflexivity. Qed.

Example unknown_tool_scenario :
  response (handleMCPRequest (routeToolCall sampleRuntime mockClient)
              {| id := VNum 6; method := "tools/call";
                 params := VObj [("name", VStr "unknown_tool"); ("arguments", VObj [])] |})
  = ResultResponse (VNum 6) (ToolCallResult (errorResult "Unknown tool: unknown_tool")).
Proof. reflexivity. Qed.

Example sixteen_tools : List.length getToolDefinitions = 16%nat.
Proof. reflexivity. Qed.

Example rate_limited_error_text :
  handleTripItError (ThrowTripIt (newTripItError 429 "Rate limited"))
  = errorResult "TripIt error: Rate limited".
Proof. reflexivity. Qed.

Example pro_required_error_text :
  handleTripItError (ThrowTripIt (newProRequiredError "Flight status"))
  = errorResult "TripIt API error (403): Flight status requires TripIt Pro subscription".
Proof. reflexivity. Qed.

(** HTTP 500 on the first two attempts and 200 on the third: the call returns
    the third payload, having waited twice. *)
Example recovers_on_third_attempt :
  let r := request sampleRuntime sampleClient
             (answering [Response 500 "" (inl ""); Response 500 "" (inl "")]
                (Response 200 "{}" (inr (VObj [("Trip", VArr [])]))))
             GET "/list/trip" VUndefined startState in
  result r = ret (VObj [("Trip", VArr [])])
  /\ backoffs (trace r) = [1000; 2000]
  /\ fetchCount (trace r) = 3%nat.
Proof. vm_compute. repeat split. Qed.

(** Two calls in a row: the second is held back until 400 ms have passed since
    the first was sent. *)
Example throttle_holds_second_call :
  let world := always (Response 200 "{}" (inr (VObj []))) in
  let first := request sampleRuntime sampleClient world GET "/get/profile" VUndefined
                 startState in
  let second := request sampleRuntime sampleClient world GET "/get/profile" VUndefined
                  (final first) in
  trace first = [Fetched 0 (buildRequest sampleRuntime sampleClient world 0 GET
                              "/get/profile" VUndefined startState)]
  /\ hd_error (trace second) = Some (Throttled 350).
Proof. vm_compute. repeat split. Qed.

Example createFlight_payload :
  createPayload sampleRuntime "air" [("Segment", VArr [])] (VStr "42")
  = VObj [("AirObject", VObj [("Segment", VArr []); ("trip_id", VStr "42")])].
Proof. reflexivity. Qed.

(** ** The throttle *)

Lemma throttle_idle (st : State) :
  MIN_REQUEST_INTERVAL_MS <= now st - lastRequestTime st ->
  throttle st = ({| now := now st; lastRequestTime := now st |}, []).
Proof.
  intros H. unfold throttle.
  apply Z.ltb_ge in H. rewrite H. reflexivity.
Qed.

(** X1.  [throttle] records a send time that is at least
    [MIN_REQUEST_INTERVAL_MS] after the previous one and never moves the
    clock back; it suspends the caller for exactly the missing time, and not
    at all once the interval has passed. *)
Theorem throttle_spacing (st : State) :
  let st' := fst (throttle st) in
  let elapsed := now st - lastRequestTime st in
  lastRequestTime st' = now st'
  /\ now st <= now st'
  /\ MIN_REQUEST_INTERVAL_MS <= now st' - lastRequestTime st
  /\ (MIN_REQUEST_INTERVAL_MS <= elapsed ->
      now st' = now st /\ snd (throttle st) = [])
  /\ (elapsed < MIN_REQUEST_INTERVAL_MS ->
      now st' = lastRequestTime st + MIN_REQUEST_INTERVAL_MS
      /\ snd (throttle st) = [Throttled (MIN_REQUEST_INTERVAL_MS - elapsed)]).
Proof.
  cbv zeta. unfold throttle, sleep, MIN_REQUEST_INTERVAL_MS.
  destruct (now st - lastRequestTime st <? 400) eqn:E; cbn [fst snd now lastRequestTime].
  - apply Z.ltb_lt in E. repeat split; try lia.
  - apply Z.ltb_ge in E. repeat split; try lia.
Qed.

Lemma backoffDelay_ge_base (attempt : nat) : BASE_DELAY_MS <= backoffDelay attempt.
Proof.
  unfold backoffDelay, BASE_DELAY_MS.
  assert (0 < 2 ^ Z.of_nat attempt) by (apply Z.pow_pos_nonneg; lia). lia.
Qed.

(** Once the interval has passed, no iteration of the loop is throttled: each
    backoff is longer than the interval. *)
Lemma attempts_not_throttled (rt : Runtime) (client : TripItClient) (world : World)
    (m : HttpMethod) (path : string) (payload : Value)
    (remaining attempt : nat) (lastError : option TripItError) (st : State) (ms : Z) :
  MIN_REQUEST_INTERVAL_MS <= now st - lastRequestTime st ->
  ~ In (Throttled ms)
      (trace (attempts rt client world m path payload remaining attempt lastError st)).
Proof.
  revert attempt lastError st.
  induction remaining as [| remaining IH]; intros attempt lastError st Hst Hin.
  - contradiction.
  - rewrite attempts_step in Hin. cbv zeta in Hin.
    rewrite (throttle_idle st Hst) in Hin. cbn [fst snd] in Hin.
    destruct (verdict rt attempt path (outcome world attempt)) as [r | delay e] eqn:Hv.
    + cbn in Hin. destruct Hin as [H | []]. discriminate H.
    + cbn [trace prepend app] in Hin.
      destruct Hin as [H | [H | Hin]]; [discriminate H | discriminate H |].
      apply IH in Hin; [exact Hin |].
      pose proof (verdict_retry_delay _ _ _ _ _ _ Hv) as ->.
      pose proof (backoffDelay_ge_base attempt).
      unfold sleep, MIN_REQUEST_INTERVAL_MS, BASE_DELAY_MS in *.
      cbn [now lastRequestTime]. lia.
Qed.

(** X2.  Within one logical call only the first attempt can be throttled: the
    trace is the throttle step of the first attempt followed by fetches and
    backoff waits. *)
Theorem request_throttles_first_attempt_only
    (rt : Runtime) (client : TripItClient) (world : World)
    (m : HttpMethod) (path : string) (payload : Value) (st : State) :
  exists rest,
    trace (request rt client world m path payload st) = (snd (throttle st) ++ rest)%list
    /\ forall ms, ~ In (Throttled ms) rest.
Proof.
  unfold request, MAX_RETRIES. rewrite attempts_step. cbv zeta.
  destruct (verdict rt 0 path (outcome world 0)) as [r | delay e] eqn:Hv.
  - eexists. split; [reflexivity |]. intros ms [H | []]. discriminate H.
  - cbn [trace prepend]. rewrite <- app_assoc. eexists. split; [reflexivity |].
    intros ms [H | [H | Hin]]; [discriminate H | discriminate H |].
    apply attempts_not_throttled in Hin; [exact Hin |].
    pose proof (verdict_retry_delay _ _ _ _ _ _ Hv) as ->.
    pose proof (backoffDelay_ge_base 0).
    assert (lastRequestTime (fst (throttle st)) = now (fst (throttle st))) as Hlast
      by (unfold throttle; destruct (_ <? _); reflexivity).
    unfold sleep, MIN_REQUEST_INTERVAL_MS, BASE_DELAY_MS in *.
    cbn [now lastRequestTime]. lia.
Qed.

(** ** What a logical call returns and throws *)

Section RequestResults.

Context (rt : Runtime) (client : TripItClient) (world : World).
Context (m : HttpMethod) (path : string) (payload : Value).

#[local] Abbreviation run := (attempts rt client world m path payload).

Lemma ok_not_retried (status : Z) :
  ok status = true ->
  (status =? 401) = false /\ (status =? 404) = false
  /\ ((status =? 429) || (status >=? 500)) = false.
Proof.
  unfold ok. intros H. apply andb_true_iff in H. destruct H as [H1 H2].
  apply Z.leb_le in H1, H2.
  repeat split; try (apply Z.eqb_neq; lia).
  apply orb_false_iff. split; [apply Z.eqb_neq; lia |].
  rewrite Z.geb_leb. apply Z.leb_gt. lia.
Qed.

Lemma refused_not_ok (status : Z) :
  ((status =? 429) || (status >=? 500)) = true -> ok status = false.
Proof.
  intros H. unfold ok. apply orb_true_iff in H. apply andb_false_iff. right.
  apply Z.leb_gt. destruct H as [H | H]; [apply Z.eqb_eq in H; lia |].
  rewrite Z.geb_leb in H. apply Z.leb_le in H. lia.
Qed.

(** An iteration returns only the payload of a success response. *)
Lemma verdict_done_ret (attempt : nat) (o : Outcome) (v : Value) :
  verdict rt attempt path o = Done (inr v) ->
  exists status text, o = Response status text (inr v) /\ ok status = true.
Proof.
  unfold verdict, tryBlock. intros H.
  destruct o as [name msg | status text json]; [discriminate H |].
  destruct (status =? 401); [discriminate H |].
  destruct (status =? 404); [discriminate H |].
  destruct ((status =? 429) || (status >=? 500)); [discriminate H |].
  destruct (ok status) eqn:Hok; cbn [negb] in H; [| discriminate H].
  destruct json as [msg | payload']; [discriminate H |].
  injection H as ->. eauto.
Qed.

(** The error an iteration ends the call with is that of a 401 or a 404. *)
Lemma verdict_done_throw (attempt : nat) (o : Outcome) (error : Thrown) :
  verdict rt attempt path o = Done (inl error) ->
  exists status text json,
    o = Response status text json
    /\ ((status = 401 /\ error = ThrowTripIt defaultAuthenticationError)
        \/ (status = 404 /\ error = ThrowTripIt (newNotFoundError "resource" path))).
Proof.
  unfold verdict, tryBlock. intros H.
  destruct o as [name msg | status text json]; [discriminate H |].
  exists status, text, json. split; [reflexivity |].
  destruct (status =? 401) eqn:E401.
  { apply Z.eqb_eq in E401. cbn in H. injection H as <-. auto. }
  destruct (status =? 404) eqn:E404.
  { apply Z.eqb_eq in E404. cbn in H. injection H as <-. auto. }
  destruct ((status =? 429) || (status >=? 500)); [discriminate H |].
  destruct (negb (ok status)); [discriminate H |].
  destruct json; discriminate H.
Qed.

(** The error an iteration records has status 0 (no usable response) or the
    status of the refused response. *)
Lemma verdict_retry_status (attempt : nat) (o : Outcome) (delay : Z) (e : TripItError) :
  verdict rt attempt path o = Retry delay e ->
  errorClass e = TripItErrorClass
  /\ (statusCode e = 0
      \/ exists text json, o = Response (statusCode e) text json
                           /\ ok (statusCode e) = false).
Proof.
  unfold verdict, tryBlock. intros H.
  destruct o as [name msg | status text json].
  { cbn in H. injection H as _ <-. auto. }
  destruct (status =? 401); [discriminate H |].
  destruct (status =? 404); [discriminate H |].
  destruct ((status =? 429) || (status >=? 500)) eqn:Hs.
  { injection H as _ <-. split; [reflexivity |]. right. cbn.
    eauto using refused_not_ok. }
  destruct (ok status) eqn:Hok; cbn [negb] in H.
  - destruct json; [cbn in H; injection H as _ <-; auto | discriminate H].
  - cbn in H. injection H as _ <-. split; [reflexivity |]. right. cbn. eauto.
Qed.

Lemma attempts_returns (remaining attempt : nat) (lastError : option TripItError)
    (st : State) (v : Value) :
  result (run remaining attempt lastError st) = ret v ->
  exists i status text,
    (attempt <= i < attempt + remaining)%nat
    /\ outcome world i = Response status text (inr v)
    /\ ok status = true
    /\ (attempt + fetchCount (trace (run remaining attempt lastError st)) = S i)%nat.
Proof.
  revert attempt lastError st.
  induction remaining as [| remaining IH]; intros attempt lastError st Hres.
  - discriminate Hres.
  - destruct (verdict rt attempt path (outcome world attempt)) as [r | delay e] eqn:Hv.
    + destruct (attempts_done rt client world m path payload remaining attempt
                  lastError st r Hv) as (Hr & Hc & _).
      rewrite Hr in Hres. subst r.
      destruct (verdict_done_ret _ _ _ Hv) as (status & text & Ho & Hok).
      exists attempt, status, text. rewrite Hc. repeat split; try lia; assumption.
    + destruct (attempts_retry rt client world m path payload remaining attempt
                  lastError st delay e Hv) as (st' & Hr & Hc & _).
      rewrite Hr in Hres.
      destruct (IH _ _ _ Hres) as (i & status & text & Hi & Ho & Hok & Hn).
      exists i, status, text. rewrite Hc. repeat split; try lia; assumption.
Qed.

Lemma attempts_throws (remaining attempt : nat) (lastError : option TripItError)
    (st : State) (error : Thrown) :
  (forall e, lastError = Some e -> Thrown_by_request world attempt (ThrowTripIt e)) ->
  result (run remaining attempt lastError st) = throw error ->
  Thrown_by_request world (attempt + remaining) error.
Proof.
  revert attempt lastError st.
  induction remaining as [| remaining IH]; intros attempt lastError st Hlast Hres.
  - rewrite Nat.add_0_r. cbn in Hres. injection Hres as <-.
    destruct lastError as [e |]; [now apply Hlast |].
    exists (newTripItError 0 "Request failed after retries"). auto.
  - destruct (verdict rt attempt path (outcome world attempt)) as [r | delay e] eqn:Hv.
    + destruct (attempts_done rt client world m path payload remaining attempt
                  lastError st r Hv) as (Hr & _).
      rewrite Hr in Hres. subst r.
      destruct (verdict_done_throw _ _ _ Hv) as (status & text & json & Ho & Hcase).
      destruct Hcase as [[-> ->] | [-> ->]]; eexists; (split; [reflexivity |]);
        right; exists attempt, text, json; (split; [lia |]); split;
        try exact Ho; reflexivity.
    + destruct (attempts_retry rt client world m path payload remaining attempt
                  lastError st delay e Hv) as (st' & Hr & _).
      rewrite Hr in Hres.
      replace (attempt + S remaining)%nat with (S attempt + remaining)%nat by lia.
      apply (IH (S attempt) (Some e) st'); [| exact Hres].
      intros e' He'. injection He' as <-.
      exists e. split; [reflexivity |].
      destruct (verdict_retry_status _ _ _ _ Hv) as (_ & [H0 | (text & json & Ho & Hok)]);
        [left; exact H0 |].
      right. exists attempt, text, json. repeat split; [lia | exact Ho | exact Hok].
Qed.

End RequestResults.

(** X3.  A payload that [request] returns is the parsed body of a success
    response received by one of its at most [MAX_RETRIES] attempts, and that
    attempt is the last one the call makes. *)
Theorem request_returns_received_payload
    (rt : Runtime) (client : TripItClient) (world : World)
    (m : HttpMethod) (path : string) (payload : Value) (st : State) (v : Value) :
  result (request rt client world m path payload st) = ret v ->
  exists i status text,
    (i < MAX_RETRIES)%nat
    /\ outcome world i = Response status text (inr v)
    /\ ok status = true
    /\ fetchCount (trace (request rt client world m path payload st)) = S i.
Proof.
  intros H. unfold request in *.
  destruct (attempts_returns rt client world m path payload _ _ _ _ _ H)
    as (i & status & text & Hi & Ho & Hok & Hn).
  exists i, status, text. repeat split; try lia; assumption.
Qed.

Lemma request_returns_received_payload_witness :
  let world := answering [NoResponse "TypeError" "fetch failed"]
                 (Response 200 "{}" (inr (VObj [("Profile", VObj [])]))) in
  exists i status text,
    (i < 3)%nat
    /\ outcome world i = Response status text (inr (VObj [("Profile", VObj [])]))
    /\ ok status = true.
Proof.
  cbv zeta.
  destruct (request_returns_received_payload sampleRuntime sampleClient
              (answering [NoResponse "TypeError" "fetch failed"]
                 (Response 200 "{}" (inr (VObj [("Profile", VObj [])]))))
              GET "/get/profile" VUndefined startState (VObj [("Profile", VObj [])])
              eq_refl)
    as (i & status & text & Hi & Ho & Hok & _).
  exists i, status, text. repeat split; assumption.
Defined.

(** X4.  Whatever [request] throws is an instance of [TripItError]: a network
    error or an unparsable body never reaches the caller as it was thrown.
    Its status is 0 or the status of a refused (non-2xx) response that one of
    the attempts received. *)
Theorem request_throws_TripItError
    (rt : Runtime) (client : TripItClient) (world : World)
    (m : HttpMethod) (path : string) (payload : Value) (st : State) (error : Thrown) :
  result (request rt client world m path payload st) = throw error ->
  exists e,
    error = ThrowTripIt e
    /\ (statusCode e = 0
        \/ exists i text json,
             (i < MAX_RETRIES)%nat
             /\ outcome world i = Response (statusCode e) text json
             /\ ok (statusCode e) = false).
Proof.
  intros H. unfold request in H.
  apply (attempts_throws rt client world m path payload MAX_RETRIES 0 None st error);
    [discriminate | exact H].
Qed.

Lemma request_throws_TripItError_witness :
  exists e,
    ThrowTripIt (newTripItError 0 "TypeError: fetch failed") = ThrowTripIt e
    /\ (statusCode e = 0
        \/ exists i text json,
             (i < MAX_RETRIES)%nat
             /\ outcome (always (NoResponse "TypeError" "fetch failed")) i
                = Response (statusCode e) text json
             /\ ok (statusCode e) = false).
Proof.
  apply (request_throws_TripItError sampleRuntime sampleClient
           (always (NoResponse "TypeError" "fetch failed"))
           GET "/get/profile" VUndefined startState
           (ThrowTripIt (newTripItError 0 "TypeError: fetch failed"))).
  reflexivity.
Defined.

(** ** From a tool call to the provider and back *)

(** On a string, the key [updateObject] computes is that of [createObject]. *)
Lemma capitalizeValue_string (rt : Runtime) (s : string) :
  Client.capitalizeValue rt (VStr s) = ret (capitalize rt s).
Proof.
  unfold Client.capitalizeValue, capitalize. cbn [bind ret].
  destruct (typeMapGet s typeMap) as [key |].
  - destruct (key =? "")%string; reflexivity.
  - destruct (member s objectPrototypeProperties); reflexivity.
Qed.

Lemma Contains_refl (s : string) : Contains s s.
Proof.
  exists ""%string, ""%string. cbn.
  induction s as [| c s IH]; cbn; [reflexivity | now rewrite <- IH].
Qed.

Lemma Contains_app_r (p s sub : string) : Contains s sub -> Contains (p ++ s) sub.
Proof.
  intros (a & b & ->). exists (p ++ a)%string, b. now rewrite string_app_assoc.
Qed.

Lemma Contains_app_l (s q sub : string) : Contains s sub -> Contains (s ++ q) sub.
Proof.
  intros (a & b & ->). exists a, (b ++ q)%string. now rewrite !string_app_assoc.
Qed.

(** Find the part of a concatenation that is the text sought. *)
Ltac find_contained :=
  solve [ apply Contains_refl
        | apply Contains_app_l; find_contained
        | apply Contains_app_r; find_contained ].

Section EndToEnd.

Context (rt : Runtime) (client : TripItClient) (world : World) (st : State).

#[local] Abbreviation live := (Client.api rt client world st).

Lemma send_401 (m : HttpMethod) (path : string) (payload : Value)
    (text : string) (json : string + Value) :
  outcome world 0 = Response 401 text json ->
  result (request rt client world m path payload st)
  = throw (ThrowTripIt defaultAuthenticationError).
Proof.
  intros Ho. unfold request, MAX_RETRIES.
  assert (verdict rt 0 path (outcome world 0)
          = Done (throw (ThrowTripIt defaultAuthenticationError))) as Hv
    by (rewrite Ho; reflexivity).
  now destruct (attempts_done rt client world m path payload 2 0 None st _ Hv) as (-> & _).
Qed.

Lemma send_404 (m : HttpMethod) (path : string) (payload : Value)
    (text : string) (json : string + Value) :
  outcome world 0 = Response 404 text json ->
  result (request rt client world m path payload st)
  = throw (ThrowTripIt (newNotFoundError "resource" path)).
Proof.
  intros Ho. unfold request, MAX_RETRIES.
  assert (verdict rt 0 path (outcome world 0)
          = Done (throw (ThrowTripIt (newNotFoundError "resource" path)))) as Hv
    by (rewrite Ho; reflexivity).
  now destruct (attempts_done rt client world m path payload 2 0 None st _ Hv) as (-> & _).
Qed.

Lemma send_ok (m : HttpMethod) (path : string) (payload : Value)
    (status : Z) (text : string) (v : Value) :
  outcome world 0 = Response status text (inr v) ->
  ok status = true ->
  result (request rt client world m path payload st) = ret v.
Proof.
  intros Ho Hok. unfold request, MAX_RETRIES.
  assert (verdict rt 0 path (outcome world 0) = Done (ret v)) as Hv.
  { rewrite Ho. unfold verdict, tryBlock.
    destruct (ok_not_retried status Hok) as (-> & -> & ->). now rewrite Hok. }
  now destruct (attempts_done rt client world m path payload 2 0 None st _ Hv) as (-> & _).
Qed.

(** Unfold a tool call down to the request the client sends. *)
Ltac run_tool H :=
  enter_tool H;
  unfold Client.api;
  cbn [listTrips getTrip createTrip updateTrip deleteTrip getObject
       listObjects createFlight createHotel createCar createActivity updateObject
       deleteObject getFlightStatus listPointsPrograms getProfile];
  unfold Client.listTrips, Client.getTrip, Client.createTrip, Client.updateTrip,
    Client.deleteTrip, Client.getObject, Client.listObjects, Client.createFlight,
    Client.createHotel, Client.createCar, Client.createActivity, Client.updateObject,
    Client.deleteObject, Client.getFlightStatus, Client.listPointsPrograms,
    Client.getProfile, Client.send, createObject,
    Client.lodgingData, Client.carData, Client.activityData;
  cbn [getProp lookup String.eqb Ascii.eqb Bool.eqb bind ret].

(** Use the texts of the converted arguments. *)
Ltac use_texts Hconv :=
  cbn [coercedArguments forallb app String.eqb Ascii.eqb Bool.eqb orb] in Hconv;
  repeat match type of Hconv with
         | context [if truthy ?v then _ else _] =>
             let T := fresh "T" in
             destruct (truthy v) eqn:T; try rewrite T in Hconv
         end;
  cbn [forallb app] in Hconv;
  repeat (apply andb_true_iff in Hconv;
          let Hc := fresh "Hc" in destruct Hconv as [Hc Hconv]);
  unfold joined, epochSeconds, Client.listTripsPath, Client.segment;
  cbn [past modifiedSince includeObjects page pageSize bind ret];
  repeat match goal with
         | Hc : convertible ?v = true |- context [stringOf ?r ?v] =>
             rewrite (stringOf_convertible r v Hc)
         end;
  cbn [bind ret].

(** The date [tripit_list_trips] hands to the client has a text. *)
Lemma list_trips_call (args : Value) :
  nullish args = false ->
  forallb convertible (coercedArguments "tripit_list_trips" args) = true ->
  exists path,
    handleToolCall rt live "tripit_list_trips" args
    = tryCatch
        (result <- Client.send rt client world st GET path VUndefined ;;
         ret (jsonResult rt result))
        handleTripItError.
Proof.
  intros H Hconv. run_tool H.
  cbn [coercedArguments String.eqb Ascii.eqb Bool.eqb] in Hconv.
  destruct (truthy (getPropOpt args "modified_since")) eqn:Hm;
    destruct (truthy (getPropOpt args "page")) eqn:Hp;
    destruct (truthy (getPropOpt args "page_size")) eqn:Hs;
    use_texts Hconv;
    rewrite ?Hp, ?Hs; cbn [bind ret truthy];
    repeat match goal with
           | |- context [parseEpochSeconds ?r ?t] => destruct (parseEpochSeconds r t)
           | |- context [if ?b then _ else _] => destruct b
           end;
    unfold stringOf; cbn [convertible bind ret];
    eexists; reflexivity.
Qed.

(** A [TypeError] of [capitalize] is translated to the generic message. *)
Lemma capitalizeValue_throws (v : Value) (error : Thrown) :
  Client.capitalizeValue rt v = throw error ->
  handleTripItError error = errorResult "An unexpected error occurred. Please try again.".
Proof.
  unfold Client.capitalizeValue, stringOf.
  destruct v; cbn [bind ret convertible];
    repeat match goal with
           | |- context [if ?b then _ else _] => destruct b; cbn [bind ret throw]
           | |- context [match typeMapGet ?k ?t with _ => _ end] =>
               destruct (typeMapGet k t); cbn [bind ret throw]
           end;
    intros H; try discriminate H; injection H as <-; reflexivity.
Qed.

(** Decide, one conversion after the other, whether the argument has a text. *)
Ltac try_texts :=
  unfold joined, epochSeconds, Client.listTripsPath, Client.segment;
  cbn [past modifiedSince includeObjects page pageSize bind ret];
  repeat match goal with
         | |- context [stringOf ?r (VNum ?z)] =>
             change (stringOf r (VNum z)) with (@ret string (toString r (VNum z)));
             cbn [bind ret]
         | |- context [stringOf ?r ?v] =>
             let E := fresh "E" in
             destruct (convertible v) eqn:E;
             [ rewrite (stringOf_convertible r v E)
             | rewrite (stringOf_unconvertible r v E) ];
             cbn [bind ret throw tryCatch]
         end.

(** X7.  Whatever registered tool is called with arguments whose converted
    parts have a text, if the provider answers the first attempt with HTTP
    401 the tool result is the request to re-authorize, flagged as an error;
    and the dispatcher delivers it as the result of a successful
    [tools/call] response, not as a JSON-RPC error.  (For
    [tripit_create_car] the arguments must carry a [pickup_location], for
    [tripit_update_object] a string [object_type]: without them, as without
    a text for a converted argument, the call fails before any request.) *)
Theorem tool_call_401_asks_to_reauthorize
    (name : string) (args : Value) (text : string) (json : string + Value) :
  In name getToolDefinitions ->
  nullish args = false ->
  forallb convertible (coercedArguments name args) = true ->
  outcome world 0 = Response 401 text json ->
  (name = "tripit_create_car" -> nullish (getPropOpt args "pickup_location") = false) ->
  (name = "tripit_update_object" -> exists s, getPropOpt args "object_type" = VStr s) ->
  let reauthorize :=
    errorResult "TripIt authentication expired. Please re-authorize at /oauth/start" in
  handleToolCall rt live name args = reauthorize
  /\ forall rid,
       response (handleMCPRequest (routeToolCall rt live)
                   {| id := rid; method := "tools/call";
                      params := VObj [("name", VStr name); ("arguments", args)] |})
       = ResultResponse rid (ToolCallResult reauthorize).
Proof.
  intros Hin H Hconv Ho Hcar Hupdate. cbv zeta.
  assert (handleToolCall rt live name args
          = errorResult "TripIt authentication expired. Please re-authorize at /oauth/start")
    as Hcall.
  { cbn in Hin. destruct Hin as [<- | Hin].
    { destruct (list_trips_call args H Hconv) as [path ->].
      unfold Client.send. rewrite (send_401 _ _ _ _ _ Ho). reflexivity. }
    repeat (destruct Hin as [<- | Hin];
            [ try (destruct (Hupdate eq_refl) as [s Hs]);
              try (pose proof (Hcar eq_refl) as Hpick);
              run_tool H;
              cbn [coercedArguments String.eqb Ascii.eqb Bool.eqb orb] in Hconv;
              try (rewrite Hs in *; rewrite capitalizeValue_string);
              use_texts Hconv;
              try rewrite (getProp_defined _ "city" Hpick);
              cbn [bind ret];
              rewrite (send_401 _ _ _ _ _ Ho); reflexivity
            | ]).
    contradiction. }
  split; [exact Hcall |].
  intros rid. unfold handleMCPRequest, dispatchBody.
  cbn [method params id getPropOpt lookup String.eqb Ascii.eqb Bool.eqb].
  assert (truthy (VStr name) = true) as ->.
  { cbn in Hin. repeat (destruct Hin as [<- | Hin]; [reflexivity |]). contradiction. }
  cbn [negb]. unfold coalesce. rewrite H. unfold routeToolCall.
  cbn [bind ret tryCatch response]. now rewrite Hcall.
Qed.

(** X8.  For the tools that address one trip or object by its id, called
    with arguments whose converted parts have a text, a 404 on the first
    attempt yields an error result whose text contains the text of that id
    as it was passed. *)
Theorem tool_call_404_names_the_id
    (name key : string) (args : Value) (text : string) (json : string + Value) :
  In (name, key)
     [ ("tripit_get_trip", "trip_id"); ("tripit_update_trip", "trip_id");
       ("tripit_delete_trip", "trip_id"); ("tripit_get_object", "object_id");
       ("tripit_delete_object", "object_id");
       ("tripit_get_flight_status", "flight_id") ] ->
  nullish args = false ->
  forallb convertible (coercedArguments name args) = true ->
  outcome world 0 = Response 404 text json ->
  exists shown,
    handleToolCall rt live name args = errorResult shown
    /\ Contains shown (toString rt (getPropOpt args key)).
Proof.
  intros Hin H Hconv Ho. cbn in Hin.
  repeat (destruct Hin as [Heq | Hin];
          [ injection Heq as <- <-;
            run_tool H;
            use_texts Hconv;
            rewrite (send_404 _ _ _ _ _ Ho);
            eexists; split; [reflexivity |];
            unfold message, newNotFoundError; cbn [statusCode details];
            find_contained
          | ]).
  contradiction.
Qed.

(** X9.  For the tools that report the provider's answer, called with
    arguments whose converted parts have a text, a success on the first
    attempt yields the payload, pretty-printed and not flagged as an error;
    the two delete tools confirm the deletion by the text of the id
    passed. *)
Theorem tool_call_success
    (name : string) (args : Value) (status : Z) (text : string) (v : Value) :
  nullish args = false ->
  outcome world 0 = Response status text (inr v) ->
  ok status = true ->
  (In name [ "tripit_list_trips"; "tripit_get_trip"; "tripit_create_trip";
             "tripit_update_trip"; "tripit_list_objects"; "tripit_get_object";
             "tripit_create_flight"; "tripit_create_hotel"; "tripit_create_activity";
             "tripit_list_points_programs"; "tripit_get_profile" ] ->
     forallb convertible (coercedArguments name args) = true ->
     handleToolCall rt live name args = textResult (stringifyIndented rt v))
  /\ (convertible (getPropOpt args "trip_id") = true ->
      handleToolCall rt live "tripit_delete_trip" args
      = textResult ("Trip " ++ toString rt (getPropOpt args "trip_id")
                      ++ " deleted successfully."))
  /\ (convertible (getPropOpt args "object_type") = true ->
      convertible (getPropOpt args "object_id") = true ->
      handleToolCall rt live "tripit_delete_object" args
      = textResult (toString rt (getPropOpt args "object_type") ++ " "
                      ++ toString rt (getPropOpt args "object_id")
                      ++ " deleted successfully.")).
Proof.
  intros H Ho Hok. split; [| split].
  - intros Hin Hconv. cbn in Hin. destruct Hin as [<- | Hin].
    { destruct (list_trips_call args H Hconv) as [path ->].
      unfold Client.send. rewrite (send_ok _ _ _ _ _ _ Ho Hok). reflexivity. }
    repeat (destruct Hin as [<- | Hin];
            [ run_tool H; use_texts Hconv;
              rewrite (send_ok _ _ _ _ _ _ Ho Hok); reflexivity | ]).
    contradiction.
  - intros Hc. run_tool H. rewrite !(stringOf_convertible rt _ Hc). cbn [bind ret].
    rewrite (send_ok _ _ _ _ _ _ Ho Hok). reflexivity.
  - intros Ht Hi. run_tool H. unfold joined.
    rewrite !(stringOf_convertible rt _ Ht), !(stringOf_convertible rt _ Hi).
    cbn [bind ret]. rewrite (send_ok _ _ _ _ _ _ Ho Hok). cbn [bind ret].
    rewrite !string_app_assoc. reflexivity.
Qed.

(** X10.  [tripit_create_car] without a [pickup_location] fails on reading
    the pickup city, before any request is made: the result is the generic
    error, whatever the provider would answer. *)
Theorem create_car_needs_pickup_location (args : Value) :
  nullish args = false ->
  nullish (getPropOpt args "pickup_location") = true ->
  handleToolCall rt live "tripit_create_car" args
  = errorResult "An unexpected error occurred. Please try again.".
Proof.
  intros H Hpick. run_tool H.
  destruct (getPropOpt args "pickup_location"); try discriminate Hpick; reflexivity.
Qed.

(** X28.  A registered tool called with an argument that it converts to text
    and that has none (the object [{toString: 1}] as a trip id, for
    instance) fails at the conversion, before the client sends a request:
    the result is the generic error, whatever the provider would answer. *)
Theorem tool_call_without_text_fails (name : string) (args : Value) :
  In name getToolDefinitions ->
  nullish args = false ->
  forallb convertible (coercedArguments name args) = false ->
  handleToolCall rt live name args
  = errorResult "An unexpected error occurred. Please try again.".
Proof.
  intros Hin H Hconv. cbn in Hin.
  repeat (destruct Hin as [<- | Hin];
          [ cbn [coercedArguments forallb app String.eqb Ascii.eqb Bool.eqb orb] in Hconv;
            try discriminate Hconv;
            run_tool H;
            repeat match goal with
                   | |- context [if truthy ?v then _ else _] =>
                       let T := fresh "T" in
                       destruct (truthy v) eqn:T; try rewrite T in Hconv
                   end;
            cbn [forallb app] in Hconv;
            try match goal with
                | |- context [Client.capitalizeValue ?r ?v] =>
                    let Hcap := fresh "Hcap" in
                    destruct (Client.capitalizeValue r v) as [error | capitalized] eqn:Hcap;
                    cbn [bind ret tryCatch];
                    [ exact (capitalizeValue_throws v error Hcap) | ]
                end;
            try_texts;
            repeat match goal with
                   | |- context [parseEpochSeconds ?r ?t] =>
                       destruct (parseEpochSeconds r t); cbn [truthy]
                   | |- context [if ?b then _ else _] => destruct b
                   end;
            try_texts;
            first [ reflexivity
                  | cbn [forallb app andb] in Hconv;
                    repeat match goal with
                           | E : convertible _ = true |- _ =>
                               try rewrite E in Hconv; clear E
                           end;
                    discriminate Hconv ]
          | ]).
  contradiction.
Qed.

End EndToEnd.

Lemma tool_call_401_witness :
  handleToolCall sampleRuntime
    (Client.api sampleRuntime sampleClient (always (Response 401 "" (inl ""))) startState)
    "tripit_create_car"
    (VObj [("supplier_name", VStr "Hertz"); ("pickup_location", VObj [("city", VStr "Oslo")])])
  = errorResult "TripIt authentication expired. Please re-authorize at /oauth/start".
Proof.
  apply (tool_call_401_asks_to_reauthorize sampleRuntime sampleClient
           (always (Response 401 "" (inl ""))) startState "tripit_create_car"
           (VObj [("supplier_name", VStr "Hertz");
                  ("pickup_location", VObj [("city", VStr "Oslo")])])
           "" (inl ""));
    [ cbn; tauto | reflexivity | reflexivity | reflexivity | reflexivity | discriminate ].
Defined.

Lemma tool_call_404_witness :
  exists shown,
    handleToolCall sampleRuntime
      (Client.api sampleRuntime sampleClient (always (Response 404 "" (inl ""))) startState)
      "tripit_get_trip" (VObj [("trip_id", VStr "123")])
    = errorResult shown
    /\ Contains shown "123".
Proof.
  apply (tool_call_404_names_the_id sampleRuntime sampleClient
           (always (Response 404 "" (inl ""))) startState
           "tripit_get_trip" "trip_id" (VObj [("trip_id", VStr "123")]) "" (inl ""));
    [ left; reflexivity | reflexivity | reflexivity | reflexivity ].
Defined.

Lemma tool_call_success_witness :
  let world := always (Response 200 "{}" (inr (VObj [("Trip", VArr [])]))) in
  handleToolCall sampleRuntime (Client.api sampleRuntime sampleClient world startState)
    "tripit_list_trips" (VObj [("include_past", VBool true)])
  = textResult (render (VObj [("Trip", VArr [])]))
  /\ handleToolCall sampleRuntime (Client.api sampleRuntime sampleClient world startState)
       "tripit_delete_trip" (VObj [("trip_id", VStr "123")])
     = textResult "Trip 123 deleted successfully.".
Proof.
  cbv zeta. split.
  - apply (tool_call_success sampleRuntime sampleClient
             (always (Response 200 "{}" (inr (VObj [("Trip", VArr [])])))) startState
             "tripit_list_trips" (VObj [("include_past", VBool true)])
             200 "{}" (VObj [("Trip", VArr [])]));
      [ reflexivity | reflexivity | reflexivity | left; reflexivity | reflexivity ].
  - apply (tool_call_success sampleRuntime sampleClient
             (always (Response 200 "{}" (inr (VObj [("Trip", VArr [])])))) startState
             "tripit_delete_trip" (VObj [("trip_id", VStr "123")])
             200 "{}" (VObj [("Trip", VArr [])]));
      reflexivity.
Defined.

(** A trip id that has no text: the tool fails although the provider would
    answer 200. *)
Lemma tool_call_without_text_witness :
  handleToolCall sampleRuntime
    (Client.api sampleRuntime sampleClient (always (Response 200 "{}" (inr (VObj []))))
       startState)
    "tripit_delete_trip" (VObj [("trip_id", VObj [("toString", VNum 1)])])
  = errorResult "An unexpected error occurred. Please try again.".
Proof.
  apply (tool_call_without_text_fails sampleRuntime sampleClient
           (always (Response 200 "{}" (inr (VObj [])))) startState
           "tripit_delete_trip" (VObj [("trip_id", VObj [("toString", VNum 1)])]));
    [ cbn; tauto | reflexivity | reflexivity ].
Defined.

Lemma create_car_needs_pickup_location_witness :
  handleToolCall sampleRuntime
    (Client.api sampleRuntime sampleClient (always (Response 200 "{}" (inr (VObj []))))
       startState)
    "tripit_create_car" (VObj [("supplier_name", VStr "Hertz")])
  = errorResult "An unexpected error occurred. Please try again.".
Proof.
  apply (create_car_needs_pickup_location sampleRuntime sampleClient
           (always (Response 200 "{}" (inr (VObj [])))) startState
           (VObj [("supplier_name", VStr "Hertz")]));
    reflexivity.
Defined.

(** ** The requests a call sends *)

Lemma getHeader_setHeader (k v : string) (headers : Headers) :
  getHeader k (setHeader k v headers) = Some v.
Proof.
  induction headers as [| [k' v'] headers IH]; cbn.
  - now rewrite String.eqb_refl.
  - destruct (k =? k')%string eqn:E; cbn; rewrite ?String.eqb_refl, ?E; auto.
Qed.

Lemma getHeader_setHeader_other (k k0 v : string) (headers : Headers) :
  k0 <> k -> getHeader k0 (setHeader k v headers) = getHeader k0 headers.
Proof.
  intros Hne. apply String.eqb_neq in Hne.
  induction headers as [| [k' v'] headers IH]; cbn.
  - now rewrite Hne.
  - destruct (k =? k')%string eqn:E; cbn.
    + apply String.eqb_eq in E. subst k'. now rewrite Hne.
    + now rewrite IH.
Qed.

(** X5.  Every attempt of a logical call sends the same method, url and body:
    a GET targets the path with [/format/json] appended and carries no body,
    even if a payload was passed; a POST targets the path itself and carries
    the payload as the form field [json].  The content type is always the
    form encoding, also when the signer set one; its other headers are sent
    as the signer made them for that attempt. *)
Theorem request_sends_same_request_each_attempt
    (rt : Runtime) (client : TripItClient) (world : World)
    (m : HttpMethod) (path : string) (payload : Value) (st : State)
    (attempt : nat) (sent : HttpRequest) :
  In (Fetched attempt sent) (trace (request rt client world m path payload st)) ->
  httpMethod sent = m
  /\ url sent = requestUrl m path
  /\ body sent
     = match m with
       | GET => None
       | POST =>
           if truthy payload
           then Some ("format=json&json=" ++ encodeURIComponent rt (stringify rt payload))
           else None
       end
  /\ getHeader "Content-Type" (headers sent) = Some "application/x-www-form-urlencoded"
  /\ exists timeMs,
       forall k, k <> "Content-Type" ->
         getHeader k (headers sent)
         = getHeader k (oauth client (nonce world attempt) timeMs (methodName m)
                          (requestUrl m path) (accessToken client)
                          (accessTokenSecret client)).
Proof.
  intros Hin. unfold request in Hin.
  apply attempts_requests in Hin. destruct Hin as [st' ->].
  unfold buildRequest. cbn [httpMethod url body headers].
  split; [reflexivity |].
  split; [destruct m; reflexivity |].
  split; [destruct m; reflexivity |].
  split; [apply getHeader_setHeader |].
  exists (now st'). intros k Hk. rewrite (getHeader_setHeader_other _ _ _ _ Hk).
  destruct m; reflexivity.
Qed.

Lemma request_sends_same_request_witness :
  let r := request sampleRuntime sampleClient (always (Response 500 "" (inl "")))
             GET "/get/profile" (VObj [("ignored", VNull)]) startState in
  exists sent,
    In (Fetched 2 sent) (trace r)
    /\ url sent = "https://api.tripit.com/v1/get/profile/format/json"
    /\ body sent = None.
Proof.
  cbv zeta.
  assert (exists sent,
            In (Fetched 2 sent)
               (trace (request sampleRuntime sampleClient (always (Response 500 "" (inl "")))
                         GET "/get/profile" (VObj [("ignored", VNull)]) startState)))
    as [sent Hin]
    by (eexists; vm_compute; do 4 right; left; reflexivity).
  exists sent. split; [exact Hin |].
  destruct (request_sends_same_request_each_attempt sampleRuntime sampleClient
              (always (Response 500 "" (inl ""))) GET "/get/profile"
              (VObj [("ignored", VNull)]) startState 2 sent Hin)
    as (_ & Hurl & Hbody & _).
  split; [exact Hurl | exact Hbody].
Defined.

(** ** A success status with a body that is not JSON *)

Lemma verdict_unparsable (rt : Runtime) (attempt : nat) (path : string)
    (status : Z) (text msg : string) :
  ok status = true ->
  verdict rt attempt path (Response status text (inl msg))
  = Retry (backoffDelay attempt)
      (newTripItError 0 (thrownToString rt (ThrowError "SyntaxError" msg))).
Proof.
  intros Hok. unfold verdict, tryBlock.
  destruct (ok_not_retried status Hok) as (-> & -> & ->).
  rewrite Hok. reflexivity.
Qed.

(** X6.  A 2xx response whose body does not parse as JSON (an empty body, for
    instance) is not a success for [request]: it is handled like a network
    failure.  The call backs off and tries again, and when all
    [MAX_RETRIES] attempts are answered that way it fails, after three
    waits, with a [TripItError] of status 0 that carries the parser's
    message. *)
Theorem request_retries_unparsable_success
    (rt : Runtime) (client : TripItClient) (world : World)
    (m : HttpMethod) (path : string) (payload : Value) (st : State) (msg : string) :
  (forall i, (i < MAX_RETRIES)%nat ->
     exists status text, outcome world i = Response status text (inl msg)
                         /\ ok status = true) ->
  let r := request rt client world m path payload st in
  result r
  = throw (ThrowTripIt
             (newTripItError 0 (thrownToString rt (ThrowError "SyntaxError" msg))))
  /\ fetchCount (trace r) = MAX_RETRIES
  /\ backoffs (trace r) = [1000; 2000; 4000].
Proof.
  unfold MAX_RETRIES. intros Hall. cbv zeta. unfold request, MAX_RETRIES.
  destruct (Hall 0%nat ltac:(lia)) as (s0 & t0 & O0 & K0).
  destruct (Hall 1%nat ltac:(lia)) as (s1 & t1 & O1 & K1).
  destruct (Hall 2%nat ltac:(lia)) as (s2 & t2 & O2 & K2).
  pose proof (verdict_unparsable rt 0 path s0 t0 msg K0) as V0. rewrite <- O0 in V0.
  pose proof (verdict_unparsable rt 1 path s1 t1 msg K1) as V1. rewrite <- O1 in V1.
  pose proof (verdict_unparsable rt 2 path s2 t2 msg K2) as V2. rewrite <- O2 in V2.
  destruct (attempts_retry rt client world m path payload 2 0 None st _ _ V0)
    as (st1 & R0 & C0 & B0 & _).
  set (e := newTripItError 0 (thrownToString rt (ThrowError "SyntaxError" msg))) in *.
  destruct (attempts_retry rt client world m path payload 1 1 (Some e) st1 _ _ V1)
    as (st2 & R1 & C1 & B1 & _).
  destruct (attempts_retry rt client world m path payload 0 2 (Some e) st2 _ _ V2)
    as (st3 & R2 & C2 & B2 & _).
  cbv zeta in R0, C0, B0, R1, C1, B1, R2, C2, B2.
  rewrite R0, R1, R2, C0, C1, C2, B0, B1, B2. cbn. repeat split; reflexivity.
Qed.

Lemma request_retries_unparsable_success_witness :
  let r := request sampleRuntime sampleClient
             (always (Response 200 "" (inl "Unexpected end of JSON input")))
             GET "/delete/trip/id/7" VUndefined startState in
  result r
  = throw (ThrowTripIt
             (newTripItError 0 "SyntaxError: Unexpected end of JSON input"))
  /\ fetchCount (trace r) = 3%nat.
Proof.
  cbv zeta.
  destruct (request_retries_unparsable_success sampleRuntime sampleClient
              (always (Response 200 "" (inl "Unexpected end of JSON input")))
              GET "/delete/trip/id/7" VUndefined startState
              "Unexpected end of JSON input")
    as (Hr & Hc & _).
  - intros i _. exists 200, ""%string. split; reflexivity.
  - split; [exact Hr | exact Hc].
Defined.

(** ** The router and the method table *)

(** Decide the comparisons of a name that is not in the list compared with. *)
Ltac skip_case Hnot :=
  match goal with
  | |- context [(?name =? ?lit)%string] =>
      let E := fresh "E" in
      destruct (name =? lit)%string eqn:E;
      [ apply String.eqb_eq in E; exfalso; apply Hnot; rewrite E; cbn; tauto | ]
  end.

Lemma tripToolBody_default (rt : Runtime) (client : ClientApi) (name : string) (args : Value) :
  ~ In name tripTools -> tripToolBody rt client name args = ret (unknownTool name).
Proof. intros Hnot. unfold tripToolBody. repeat skip_case Hnot. reflexivity. Qed.

Lemma objectToolBody_default (rt : Runtime) (client : ClientApi) (name : string)
    (args : Value) :
  ~ In name objectTools -> objectToolBody rt client name args = ret (unknownTool name).
Proof. intros Hnot. unfold objectToolBody. repeat skip_case Hnot. reflexivity. Qed.

Lemma proToolBody_default (rt : Runtime) (client : ClientApi) (name : string) (args : Value) :
  ~ In name proTools -> proToolBody rt client name args = ret (unknownTool name).
Proof. intros Hnot. unfold proToolBody. repeat skip_case Hnot. reflexivity. Qed.

(** X11.  A name that is not one of the sixteen registered tools gets the
    unknown-tool result, whatever the arguments, and the client is not used.
    This includes the names that [name in tripTools] finds on the prototype
    chain, such as ["toString"]: they enter a handler and leave it by the
    default case of its [switch]. *)
Theorem handleToolCall_unknown_name
    (rt : Runtime) (client : ClientApi) (name : string) (args : Value) :
  ~ In name getToolDefinitions ->
  handleToolCall rt client name args = errorResult ("Unknown tool: " ++ name).
Proof.
  intros Hnot. unfold getToolDefinitions in Hnot.
  assert (~ In name tripTools) as Htrip by (intros H; apply Hnot; apply in_or_app; auto).
  assert (~ In name objectTools) as Hobject
    by (intros H; apply Hnot; apply in_or_app; right; apply in_or_app; auto).
  assert (~ In name proTools) as Hpro
    by (intros H; apply Hnot; apply in_or_app; right; apply in_or_app; auto).
  unfold handleToolCall, handleTripTool, handleObjectTool, handleProTool.
  rewrite (tripToolBody_default rt client name args Htrip),
          (objectToolBody_default rt client name args Hobject),
          (proToolBody_default rt client name args Hpro).
  cbn [tryCatch ret].
  destruct (hasProperty name tripTools); [reflexivity |].
  destruct (hasProperty name objectTools); [reflexivity |].
  destruct (hasProperty name proTools); reflexivity.
Qed.

Lemma handleToolCall_unknown_name_witness :
  handleToolCall sampleRuntime (rejectingClient (ThrowValue VNull)) "toString" VUndefined
  = errorResult "Unknown tool: toString".
Proof.
  apply (handleToolCall_unknown_name sampleRuntime (rejectingClient (ThrowValue VNull))
           "toString" VUndefined).
  cbn. intros H.
  repeat (destruct H as [H | H]; [discriminate H |]). exact H.
Defined.


(** X13.  The method table.  The six methods besides [tools/call] that the
    dispatcher knows are answered with a result; any other method but
    [tools/call] is answered with -32601 and a message that ends with the
    method as sent.  For every method but [tools/call] the router is neither
    called nor does the response depend on it. *)
Theorem handleMCPRequest_method_table
    (toolCall : Value -> Value -> Exc ToolResult) (request : MCPRequest) :
  (In (method request)
      [ "initialize"; "initialized"; "tools/list"; "ping"; "resources/list";
        "prompts/list" ] ->
     exists r, response (handleMCPRequest toolCall request)
               = ResultResponse (id request) r)
  /\ (~ In (method request)
        [ "initialize"; "initialized"; "tools/list"; "tools/call"; "ping";
          "resources/list"; "prompts/list" ] ->
      response (handleMCPRequest toolCall request)
      = ErrorResponse (id request) (-32601) ("Method not found: " ++ method request))
  /\ (method request <> "tools/call" ->
      invocations (handleMCPRequest toolCall request) = []
      /\ forall toolCall',
           response (handleMCPRequest toolCall' request)
           = response (handleMCPRequest toolCall request)).
Proof.
  split; [| split].
  - intros Hin. cbn in Hin. unfold handleMCPRequest, dispatchBody.
    repeat (destruct Hin as [<- | Hin]; [cbn; eauto |]). contradiction.
  - intros Hnot. unfold handleMCPRequest, dispatchBody.
    repeat skip_case Hnot. reflexivity.
  - intros Hne. apply String.eqb_neq in Hne.
    unfold handleMCPRequest, dispatchBody. rewrite Hne.
    split; [| intros toolCall'];
      repeat match goal with
             | |- context [if ?b then _ else _] => destruct b
             end; reflexivity.
Qed.

Lemma handleTripItError_not_unknown (error : Thrown) (name : string) :
  handleTripItError error <> errorResult ("Unknown tool: " ++ name).
Proof.
  unfold handleTripItError, errorResult, message.
  destruct error as [e | n msg | v]; try (intros H; cbn in H; discriminate H).
  destruct (statusCode e =? 401); [intros H; cbn in H; discriminate H |].
  destruct (statusCode e =? 404); [intros H; cbn in H; discriminate H |].
  destruct (statusCode e =? 403); intros H; cbn in H; discriminate H.
Qed.

(** X14.  The registry and the router agree: the sixteen advertised names are
    distinct, and a call of any of them is handled by its own case, never
    answered with the unknown-tool result, whatever the client does and
    whatever the arguments are. *)
Theorem advertised_tools_are_handled
    (rt : Runtime) (client : ClientApi) (name : string) (args : Value) :
  NoDup getToolDefinitions
  /\ (In name getToolDefinitions ->
      handleToolCall rt client name args <> errorResult ("Unknown tool: " ++ name)).
Proof.
  split.
  - unfold getToolDefinitions. cbn.
    repeat (constructor; [cbn; intros H;
                          repeat (destruct H as [H | H]; [discriminate H |]); exact H |]).
    constructor.
  - intros Hin. cbn in Hin.
    repeat (destruct Hin as [<- | Hin];
            [ unfold handleToolCall, handleTripTool, handleObjectTool, handleProTool,
                tripToolBody, objectToolBody, proToolBody;
              cbn [hasProperty member existsb tripTools objectTools proTools
                   objectPrototypeProperties String.eqb Ascii.eqb Bool.eqb orb];
              repeat match goal with
                     | |- context [bind ?c _] => destruct c; cbn [bind]
                     | |- context [if ?b then _ else _] => destruct b
                     end;
              cbn [tryCatch ret throw];
              first [ apply handleTripItError_not_unknown
                    | intros H; discriminate H ]
            | ]).
    contradiction.
Qed.

(** ** The endpoint *)

Lemma substring_all (s : string) : substring 0 (String.length s) s = s.
Proof. induction s as [| c s IH]; cbn; [reflexivity | now rewrite IH]. Qed.

Lemma slice_bearer (userId : string) : slice 7 ("Bearer " ++ userId) = userId.
Proof.
  unfold slice. cbn [append String.length Nat.sub substring].
  rewrite Nat.sub_0_r. apply substring_all.
Qed.

Lemma prefix_split (p s : string) :
  prefix p s = true -> s = (p ++ slice (String.length p) s)%string.
Proof.
  unfold slice. revert s. induction p as [| a p IH]; intros s H.
  - cbn. now rewrite Nat.sub_0_r, substring_all.
  - destruct s as [| b s]; [discriminate H |].
    cbn in H. destruct (ascii_dec a b) as [-> | _]; [| discriminate H].
    cbn. f_equal. exact (IH s H).
Qed.

Lemma prefix_bearer (userId : string) : prefix "Bearer " ("Bearer " ++ userId) = true.
Proof. cbn. destruct userId; reflexivity. Qed.

(** X15.  [POST /mcp] without an Authorization header, or with one that does
    not start with ["Bearer "], is answered 401 with the JSON-RPC error
    -32600 and id [null]: the token store is not read, the body is not
    looked at and the dispatcher is not called. *)
Theorem mcpEndpoint_requires_bearer
    (tokens : string -> option string)
    (dispatch : string -> string -> Value -> Exc MCPResponse)
    (authorization : option string) (body : option Value) :
  (forall userId, authorization <> Some ("Bearer " ++ userId)) ->
  mcpEndpoint tokens dispatch authorization body
  = ret {| httpStatus := 401;
           replyBody :=
             ErrorResponse VNull (-32600)
               "Missing Authorization header. Use: Bearer <user_id>" |}.
Proof.
  intros Hnot. unfold mcpEndpoint.
  destruct authorization as [authHeader |]; [| reflexivity].
  destruct (prefix "Bearer " authHeader) eqn:Hp; [| reflexivity].
  exfalso. apply (Hnot (slice 7 authHeader)). f_equal.
  exact (prefix_split "Bearer " authHeader Hp).
Qed.

Lemma mcpEndpoint_requires_bearer_witness :
  mcpEndpoint (fun _ => Some "token") (fun _ _ _ => ret (ResultResponse (VNum 1) EmptyResult))
    (Some "Basic dXNlcg==") (Some (VObj [("method", VStr "ping")]))
  = ret missingAuthorization.
Proof.
  apply (mcpEndpoint_requires_bearer (fun _ => Some "token")
           (fun _ _ _ => ret (ResultResponse (VNum 1) EmptyResult))
           (Some "Basic dXNlcg==") (Some (VObj [("method", VStr "ping")]))).
  intros userId H. discriminate H.
Defined.

(** X16.  With a bearer header, the user id is the header without its first
    seven characters and the session is the pair stored under
    [user:<id>:access_token] and [user:<id>:access_token_secret].  If either
    is missing or empty the answer is 401 / -32600, also for a body that is
    not JSON: the session is checked before the body is parsed.  With a
    session, an unparsable body is answered 400 / -32700, and a parsed body
    is handed to the dispatcher with exactly the stored pair; its response is
    sent with status 200, and an exception it throws is not caught. *)
Theorem mcpEndpoint_session
    (tokens : string -> option string)
    (dispatch : string -> string -> Value -> Exc MCPResponse)
    (userId : string) (body : option Value) :
  let reply := mcpEndpoint tokens dispatch (Some ("Bearer " ++ userId)) body in
  let accessToken := tokens ("user:" ++ userId ++ ":access_token") in
  let accessTokenSecret := tokens ("user:" ++ userId ++ ":access_token_secret") in
  (absent accessToken || absent accessTokenSecret = true -> reply = ret invalidSession)
  /\ (forall token secret,
        accessToken = Some token -> accessTokenSecret = Some secret ->
        token <> "" -> secret <> "" ->
        (body = None -> reply = ret parseError)
        /\ (forall parsed r, body = Some parsed ->
              dispatch token secret parsed = ret r ->
              reply = ret {| httpStatus := 200; replyBody := r |})
        /\ (forall parsed error, body = Some parsed ->
              dispatch token secret parsed = throw error ->
              reply = throw error)).
Proof.
  cbv zeta. unfold mcpEndpoint.
  rewrite prefix_bearer, slice_bearer. cbn [negb].
  split.
  - intros ->. reflexivity.
  - intros token secret -> -> Ht Hs.
    apply String.eqb_neq in Ht, Hs. cbn [absent]. rewrite Ht, Hs. cbn [orb].
    split; [intros ->; reflexivity |].
    split; intros parsed r -> ->; reflexivity.
Qed.

Lemma mcpEndpoint_session_witness :
  let tokens := fun key =>
    if (key =? "user:test-user:access_token")%string then Some "token"
    else if (key =? "user:test-user:access_token_secret")%string then Some "secret"
    else None in
  let dispatch := fun (_ _ : string) (_ : Value) => ret (ResultResponse (VNum 1) EmptyResult) in
  mcpEndpoint tokens dispatch (Some "Bearer test-user") None = ret parseError
  /\ mcpEndpoint tokens dispatch (Some "Bearer invalid-user-id") None = ret invalidSession.
Proof.
  cbv zeta. split.
  - eapply (mcpEndpoint_session _ _ "test-user" None); reflexivity || discriminate.
  - apply (mcpEndpoint_session _ _ "invalid-user-id" None). reflexivity.
Defined.

(** X17.  The dispatcher on the request as it arrives.  A request that is
    [null] or [undefined] makes [handleMCPRequest] throw a [TypeError]: the
    destructuring of the request stands outside its [try] block.  Any other
    value gets a response; one whose [method] is not a string is answered
    without a call of the router: with -32601 and the text of the method if
    it has one, and with -32603 if it has none, because the template literal
    of the default case throws inside the [try]. *)
Theorem handleMCPRequestOf_total_but_null
    (rt : Runtime) (toolCall : Value -> Value -> Exc ToolResult) (request : Value) :
  (nullish request = true ->
     exists msg, handleMCPRequestOf rt toolCall request = throw (ThrowError "TypeError" msg))
  /\ (nullish request = false ->
      exists d, handleMCPRequestOf rt toolCall request = ret d)
  /\ (nullish request = false ->
      (forall m, getPropOpt request "method" <> VStr m) ->
      handleMCPRequestOf rt toolCall request
      = ret {| response :=
                 if convertible (getPropOpt request "method")
                 then ErrorResponse (getPropOpt request "id") (-32601)
                        ("Method not found: " ++ toString rt (getPropOpt request "method"))
                 else ErrorResponse (getPropOpt request "id") (-32603)
                        "Cannot convert object to primitive value";
               invocations := [] |}).
Proof.
  split; [| split].
  - destruct request; intros H; try discriminate H; eexists; reflexivity.
  - intros H. unfold handleMCPRequestOf.
    rewrite (destructure_defined _ _ _ H). cbn [bind ret].
    destruct (getPropOpt request "method"); eexists; reflexivity.
  - intros H Hm. unfold handleMCPRequestOf.
    rewrite (destructure_defined _ _ _ H). cbn [bind ret].
    destruct (getPropOpt request "method") as [| | b | n | | m | items | props] eqn:E;
      try (exfalso; apply (Hm m); reflexivity);
      rewrite defaultCase_eq; reflexivity.
Qed.

(** X18.  A body that is the JSON value [null] passes the session check and
    the parser and then makes the handler of [POST /mcp] throw: nothing
    between the endpoint and the destructuring in [handleMCPRequest] catches
    the [TypeError], so no JSON-RPC response is produced for it. *)
Theorem mcpEndpoint_null_body_throws
    (rt : Runtime) (tokens : string -> option string)
    (toolCallFor : string -> string -> Value -> Value -> Exc ToolResult)
    (userId token secret : string) :
  tokens ("user:" ++ userId ++ ":access_token") = Some token ->
  tokens ("user:" ++ userId ++ ":access_token_secret") = Some secret ->
  token <> "" -> secret <> "" ->
  exists msg,
  mcpEndpoint tokens
    (fun accessToken accessTokenSecret parsed =>
       d <- handleMCPRequestOf rt (toolCallFor accessToken accessTokenSecret) parsed ;;
       ret (response d))
    (Some ("Bearer " ++ userId)) (Some VNull)
  = throw (ThrowError "TypeError" msg).
Proof.
  intros Ht Hs Hte Hse. unfold mcpEndpoint.
  rewrite prefix_bearer, slice_bearer, Ht, Hs. cbn [negb absent].
  apply String.eqb_neq in Hte, Hse. rewrite Hte, Hse. eexists. reflexivity.
Qed.

Lemma mcpEndpoint_null_body_witness :
  exists msg,
  mcpEndpoint (fun _ => Some "stored")
    (fun accessToken accessTokenSecret parsed =>
       d <- handleMCPRequestOf sampleRuntime (routeToolCall sampleRuntime mockClient) parsed ;;
       ret (response d))
    (Some "Bearer test-user") (Some VNull)
  = throw (ThrowError "TypeError" msg).
Proof.
  apply (mcpEndpoint_null_body_throws sampleRuntime (fun _ => Some "stored")
           (fun _ _ => routeToolCall sampleRuntime mockClient)
           "test-user" "stored" "stored");
    reflexivity || discriminate.
Defined.

(** ** Error texts *)

(** X19.  The message of every [TripItError] contains its status code in
    decimal and its details.  At the tool boundary the details are shown to
    the user for every status but 401, for which the fixed text replaces
    them. *)
Theorem error_details_are_shown (e : TripItError) :
  Contains (message e) (numberToString (statusCode e))
  /\ Contains (message e) (details e)
  /\ (statusCode e <> 401 ->
      exists shown,
        handleTripItError (ThrowTripIt e) = errorResult shown
        /\ Contains shown (details e))
  /\ (statusCode e = 401 ->
      forall e', statusCode e' = 401 ->
        handleTripItError (ThrowTripIt e) = handleTripItError (ThrowTripIt e')).
Proof.
  assert (Contains (message e) (details e)) as Hd by (unfold message; find_contained).
  split; [unfold message; find_contained |].
  split; [exact Hd |].
  split.
  - intros Hne. apply Z.eqb_neq in Hne. unfold handleTripItError. rewrite Hne.
    destruct (statusCode e =? 404); [eauto |].
    destruct (statusCode e =? 403); [eauto |].
    eexists. split; [reflexivity | find_contained].
  - intros H e' H'. unfold handleTripItError. now rewrite H, H'.
Qed.

(** ** What [createObject] does to the caller's data *)

Lemma without_assign (k : string) (v : Value) (props : list (string * Value)) :
  without k (assign k v props) = without k props.
Proof.
  unfold without. induction props as [| [k' v'] props IH]; cbn.
  - now rewrite String.eqb_refl.
  - destruct (k =? k')%string eqn:E; cbn.
    + rewrite String.eqb_refl. reflexivity.
    + rewrite E. cbn. now rewrite IH.
Qed.

Lemma assign_assign (k : string) (v : Value) (props : list (string * Value)) :
  assign k v (assign k v props) = assign k v props.
Proof.
  induction props as [| [k' v'] props IH]; cbn.
  - now rewrite String.eqb_refl.
  - destruct (k =? k')%string eqn:E; cbn; rewrite ?String.eqb_refl, ?E;
      [reflexivity | now rewrite IH].
Qed.

Lemma assign_length (k : string) (v : Value) (props : list (string * Value)) :
  List.length (assign k v props)
  = match lookup k props with
    | Some _ => List.length props
    | None => S (List.length props)
    end.
Proof.
  induction props as [| [k' v'] props IH]; cbn; [reflexivity |].
  destruct (k =? k')%string; cbn; [reflexivity |].
  rewrite IH. destruct (lookup k props); reflexivity.
Qed.

(** X20.  [createObject] changes nothing of the caller's data but [trip_id]:
    the other properties keep their values and their order; a [trip_id] the
    data already has is overwritten in place, not added a second time; and
    passing the same data again with the same [tripId] changes nothing
    more. *)
Theorem createObject_only_sets_trip_id (data : list (string * Value)) (tripId : Value) :
  without "trip_id" (dataAfterCreate data tripId) = without "trip_id" data
  /\ dataAfterCreate (dataAfterCreate data tripId) tripId = dataAfterCreate data tripId
  /\ (lookup "trip_id" data <> None ->
      List.length (dataAfterCreate data tripId) = List.length data)
  /\ (lookup "trip_id" data = None -> truthy tripId = true ->
      dataAfterCreate data tripId = assign "trip_id" tripId data
      /\ List.length (dataAfterCreate data tripId) = S (List.length data)).
Proof.
  unfold dataAfterCreate.
  destruct (truthy tripId) eqn:Ht.
  - split; [apply without_assign |]. split; [apply assign_assign |].
    rewrite assign_length.
    split; [destruct (lookup "trip_id" data); [reflexivity | congruence] |].
    intros -> _. split; reflexivity.
  - split; [reflexivity |]. split; [reflexivity |].
    split; [intros _; reflexivity | intros _ H; discriminate H].
Qed.

(** ** The paths and payloads the client builds *)

(** X21.  The path of [listTrips] starts with [/list/trip]; an option that is
    falsy ([false], [0], an empty string, absent) adds nothing to it, so with
    none set the path is [/list/trip] itself, and page number 0 cannot be
    asked for; with all five set the segments come in the fixed order past,
    modified_since, include_objects, page_num, page_size.  The path is built
    whenever the truthy ones of modifiedSince, page and pageSize have a
    text; if one of them has none, [listTrips] throws and sends nothing. *)
Theorem listTrips_path (rt : Runtime) (options : ListTripsOptions) :
  let hasText v := truthy v = true -> convertible v = true in
  (forall path, Client.listTripsPath rt options = ret path ->
     prefix "/list/trip" path = true)
  /\ (hasText (modifiedSince options) -> hasText (page options) ->
      hasText (pageSize options) ->
      exists path, Client.listTripsPath rt options = ret path)
  /\ (forall v, In v [modifiedSince options; page options; pageSize options] ->
      truthy v = true -> convertible v = false ->
      Client.listTripsPath rt options = throw cannotConvert)
  /\ (truthy (past options) = false -> truthy (modifiedSince options) = false ->
      truthy (includeObjects options) = false -> truthy (page options) = false ->
      truthy (pageSize options) = false ->
      Client.listTripsPath rt options = ret "/list/trip")
  /\ (truthy (page options) = false ->
      Client.listTripsPath rt options
      = Client.listTripsPath rt
          {| past := past options; modifiedSince := modifiedSince options;
             includeObjects := includeObjects options; page := VUndefined;
             pageSize := pageSize options |})
  /\ (truthy (past options) = true -> truthy (modifiedSince options) = true ->
      truthy (includeObjects options) = true -> truthy (page options) = true ->
      truthy (pageSize options) = true ->
      convertible (modifiedSince options) = true -> convertible (page options) = true ->
      convertible (pageSize options) = true ->
      Client.listTripsPath rt options
      = ret ("/list/trip/past/true/modified_since/" ++ toString rt (modifiedSince options)
               ++ "/include_objects/true/page_num/" ++ toString rt (page options)
               ++ "/page_size/" ++ toString rt (pageSize options))).
Proof.
  cbv zeta. unfold Client.listTripsPath, Client.segment, stringOf.
  split; [| split; [| split; [| split; [| split]]]].
  - intros path.
    destruct (truthy (past options)), (truthy (modifiedSince options)),
      (truthy (includeObjects options)), (truthy (page options)),
      (truthy (pageSize options)), (convertible (modifiedSince options)),
      (convertible (page options)), (convertible (pageSize options));
      cbn [bind ret throw]; intros H; try discriminate H; injection H as <-; reflexivity.
  - intros Hm Hp Hs.
    destruct (truthy (modifiedSince options)); [rewrite (Hm eq_refl) |];
      (destruct (truthy (page options)); [rewrite (Hp eq_refl) |]);
      (destruct (truthy (pageSize options)); [rewrite (Hs eq_refl) |]);
      cbn [bind ret]; eexists; reflexivity.
  - intros v Hin Ht Hc. cbn in Hin.
    destruct Hin as [<- | [<- | [<- | []]]]; rewrite ?Ht, ?Hc;
      destruct (truthy (modifiedSince options)), (truthy (page options)),
        (truthy (pageSize options)), (convertible (modifiedSince options)),
        (convertible (page options)), (convertible (pageSize options));
      try discriminate Ht; try discriminate Hc; reflexivity.
  - intros -> -> -> -> ->. reflexivity.
  - intros ->. reflexivity.
  - intros -> -> -> -> -> -> -> ->. cbn [bind ret append].
    rewrite !string_app_assoc. reflexivity.
Qed.



Lemma lookup_setIf (v : Value) (k k0 : string) (w : Value) (obj : list (string * Value)) :
  lookup k0 (Client.setIf v k w obj)
  = if (k0 =? k)%string && truthy v then Some w else lookup k0 obj.
Proof.
  unfold Client.setIf.
  destruct (k0 =? k)%string eqn:E; destruct (truthy v); cbn [andb]; try reflexivity.
  - apply String.eqb_eq in E. subst. apply lookup_assign_same.
  - apply String.eqb_neq in E. now apply lookup_assign_other.
Qed.

(** X23.  The car payload.  The pickup location is sent as
    [StartLocationAddress] and its city as [start_location_name].  Without a
    drop-off location the car is returned where it was picked up: both end
    fields repeat the pickup; with one, [EndLocationAddress] is the drop-off
    location, and the end name is its city, or the pickup city if it has
    none.  The confirmation number, if given, is sent as
    [supplier_conf_num], and left out otherwise. *)
Theorem createCar_payload (data : Value) :
  nullish data = false ->
  nullish (getPropOpt data "pickup_location") = false ->
  let pickup := getPropOpt data "pickup_location" in
  let dropoff := getPropOpt data "dropoff_location" in
  exists obj,
    Client.carData data = ret obj
    /\ lookup "StartLocationAddress" obj = Some pickup
    /\ lookup "start_location_name" obj = Some (getPropOpt pickup "city")
    /\ (truthy dropoff = false ->
        lookup "EndLocationAddress" obj = Some pickup
        /\ lookup "end_location_name" obj = Some (getPropOpt pickup "city"))
    /\ (truthy dropoff = true ->
        lookup "EndLocationAddress" obj = Some dropoff
        /\ lookup "end_location_name" obj
           = Some (orElse (getPropOpt dropoff "city") (getPropOpt pickup "city")))
    /\ lookup "supplier_conf_num" obj
       = (if truthy (getPropOpt data "confirmation_num")
          then Some (getPropOpt data "confirmation_num") else None)
    /\ lookup "confirmation_num" obj = None.
Proof.
  intros H Hp. cbv zeta. unfold Client.carData.
  rewrite !(getProp_defined data _ H). cbn [bind ret].
  rewrite (getProp_defined _ "city" Hp). cbn [bind ret].
  eexists. split; [reflexivity |].
  rewrite !lookup_setIf. cbn [String.eqb Ascii.eqb Bool.eqb andb lookup].
  split; [reflexivity |]. split; [reflexivity |].
  split; [| split; [| split; [reflexivity | reflexivity]]].
  - intros Hd. unfold orElse. rewrite Hd.
    split; [reflexivity |].
    destruct (getPropOpt data "dropoff_location"); try discriminate Hd; reflexivity.
  - intros Hd. unfold orElse at 1. rewrite Hd. split; reflexivity.
Qed.

Lemma createCar_payload_witness :
  exists obj,
    Client.carData (VObj [("supplier_name", VStr "Hertz");
                          ("pickup_location", VObj [("city", VStr "Oslo")])])
    = ret obj
    /\ lookup "EndLocationAddress" obj = Some (VObj [("city", VStr "Oslo")])
    /\ lookup "end_location_name" obj = Some (VStr "Oslo").
Proof.
  destruct (createCar_payload (VObj [("supplier_name", VStr "Hertz");
                                     ("pickup_location", VObj [("city", VStr "Oslo")])])
              eq_refl eq_refl)
    as (obj & Hobj & _ & _ & Hnone & _).
  exists obj. split; [exact Hobj |]. apply Hnone. reflexivity.
Defined.

(** ** The flight status report *)

(** X24.  [tripit_get_flight_status] on the payload of the client.  Without
    an [AirObject] the result is the error "Flight not found".  An empty
    segment list is reported as the empty list.  A single segment is reported
    the same way whether the provider sends it bare or in a one-element
    array: as the one-element list of its status if a flight status is
    known, and otherwise wrapped with the note that live status needs TripIt
    Pro, not flagged as an error.  A segment that cannot be read ([null])
    yields the generic error. *)
Theorem flight_status_report
    (rt : Runtime) (client : ClientApi) (args payload : Value) :
  nullish args = false ->
  getFlightStatus client (getPropOpt args "flight_id") = ret payload ->
  nullish payload = false ->
  let r := handleToolCall rt client "tripit_get_flight_status" args in
  let air := getPropOpt payload "AirObject" in
  (truthy air = false -> r = errorResult "Flight not found")
  /\ (truthy air = true -> getPropOpt air "Segment" = VArr [] ->
      r = textResult (stringifyIndented rt (VArr [])))
  /\ (forall seg,
        truthy air = true ->
        getPropOpt air "Segment" = VArr [seg]
        \/ (getPropOpt air "Segment" = seg /\ forall items, seg <> VArr items) ->
        (forall info, segmentStatus rt seg = ret info ->
           r = if monitored info
               then textResult (stringifyIndented rt (VArr [info]))
               else textResult
                      (stringifyIndented rt
                         (VObj [ ("note",
                                  VStr "Real-time flight status requires TripIt Pro. Showing basic flight info.");
                                 ("segments", VArr [info]) ])))
        /\ (nullish seg = true ->
            r = errorResult "An unexpected error occurred. Please try again.")).
Proof.
  intros H Hc Hp. cbv zeta.
  unfold handleToolCall, handleProTool, proToolBody.
  cbn [hasProperty member existsb tripTools objectTools proTools
       objectPrototypeProperties String.eqb Ascii.eqb Bool.eqb orb].
  rewrite (getProp_defined _ _ H). cbn [bind ret]. rewrite Hc. cbn [bind ret].
  rewrite (getProp_defined _ _ Hp). cbn [bind ret].
  split; [intros ->; reflexivity |].
  split.
  - intros Ht Hs. rewrite Ht. cbn [negb].
    rewrite getProp_defined by (destruct (getPropOpt payload "AirObject");
                                  try discriminate Ht; reflexivity).
    rewrite Hs. reflexivity.
  - intros seg Ht Hseg. rewrite Ht. cbn [negb].
    rewrite getProp_defined by (destruct (getPropOpt payload "AirObject");
                                  try discriminate Ht; reflexivity).
    cbn [bind ret].
    set (Segment := getPropOpt (getPropOpt payload "AirObject") "Segment") in *.
    assert (match Segment with
            | VArr items => items
            | _ => [Segment]
            end = [seg]) as ->.
    { destruct Hseg as [-> | [-> Hbare]]; [reflexivity |].
      destruct seg; try reflexivity. exfalso. now apply (Hbare items). }
    cbn [mapExc]. split.
    + intros info ->. cbn [bind ret existsb List.length Z.of_nat orb].
      destruct (monitored info); reflexivity.
    + intros Hn. destruct seg; try discriminate Hn; reflexivity.
Qed.

Lemma flight_status_report_witness :
  let segment := VObj [ ("marketing_airline_code", VStr "UA");
                        ("marketing_flight_number", VStr "837") ] in
  let client payload :=
    mkClientApi (listTrips mockClient) (getTrip mockClient) (createTrip mockClient)
      (updateTrip mockClient) (deleteTrip mockClient) (getObject mockClient)
      (listObjects mockClient) (createFlight mockClient) (createHotel mockClient)
      (createCar mockClient) (createActivity mockClient) (updateObject mockClient)
      (deleteObject mockClient) (fun _ => ret payload)
      (listPointsPrograms mockClient) (getProfile mockClient) in
  handleToolCall sampleRuntime (client (VObj []))
    "tripit_get_flight_status" (VObj [("flight_id", VStr "1")])
  = errorResult "Flight not found"
  /\ handleToolCall sampleRuntime
       (client (VObj [("AirObject", VObj [("Segment", segment)])]))
       "tripit_get_flight_status" (VObj [("flight_id", VStr "1")])
     = handleToolCall sampleRuntime
         (client (VObj [("AirObject", VObj [("Segment", VArr [segment])])]))
         "tripit_get_flight_status" (VObj [("flight_id", VStr "1")]).
Proof.
  cbv zeta. split.
  - eapply flight_status_report; reflexivity.
  - reflexivity.
Defined.

(** X25.  The hotel payload.  The address is sent as [Address]; the
    confirmation number as [supplier_conf_num], the phone as
    [supplier_phone], the check-in and check-out times nested as
    [StartDateTime.time] and [EndDateTime.time]; each of these is left out
    when it is missing or empty, and none is sent under the name it was
    passed by. *)
Theorem createHotel_payload (data : Value) :
  nullish data = false ->
  let field k := getPropOpt data k in
  let optional v w := if truthy v then Some w else None in
  exists obj,
    Client.lodgingData data = ret obj
    /\ lookup "supplier_name" obj = Some (field "supplier_name")
    /\ lookup "Address" obj = Some (field "address")
    /\ lookup "supplier_conf_num" obj
       = optional (field "confirmation_num") (field "confirmation_num")
    /\ lookup "supplier_phone" obj = optional (field "phone") (field "phone")
    /\ lookup "StartDateTime" obj
       = optional (field "check_in_time") (VObj [("time", field "check_in_time")])
    /\ lookup "EndDateTime" obj
       = optional (field "check_out_time") (VObj [("time", field "check_out_time")])
    /\ (forall k, In k ["address"; "confirmation_num"; "phone"; "check_in_time";
                        "check_out_time"] -> lookup k obj = None).
Proof.
  intros H. cbv zeta. unfold Client.lodgingData.
  rewrite !(getProp_defined data _ H). cbn [bind ret].
  eexists. split; [reflexivity |].
  rewrite !lookup_setIf. cbn [String.eqb Ascii.eqb Bool.eqb andb lookup].
  repeat (split; [reflexivity |]).
  intros k Hin. cbn in Hin.
  repeat (destruct Hin as [<- | Hin];
          [rewrite !lookup_setIf; cbn [String.eqb Ascii.eqb Bool.eqb andb lookup];
           reflexivity |]).
  contradiction.
Qed.

Lemma createHotel_payload_witness :
  exists obj,
    Client.lodgingData
      (VObj [("supplier_name", VStr "Grand"); ("confirmation_num", VStr "ABC");
             ("phone", VStr "")])
    = ret obj
    /\ lookup "supplier_conf_num" obj = Some (VStr "ABC")
    /\ lookup "supplier_phone" obj = None.
Proof.
  destruct (createHotel_payload
              (VObj [("supplier_name", VStr "Grand"); ("confirmation_num", VStr "ABC");
                     ("phone", VStr "")]) eq_refl)
    as (obj & Hobj & _ & _ & Hconf & Hphone & _).
  exists obj. split; [exact Hobj |]. split; [exact Hconf | exact Hphone].
Defined.

Lemma lookup_without (k k0 : string) (props : list (string * Value)) :
  lookup k0 (without k props) = if (k0 =? k)%string then None else lookup k0 props.
Proof.
  unfold without. induction props as [| [k' v'] props IH]; cbn.
  - now destruct (k0 =? k)%string.
  - destruct (k =? k')%string eqn:E; cbn [negb].
    + apply String.eqb_eq in E. subst k'. rewrite IH.
      destruct (k0 =? k)%string eqn:E0; reflexivity.
    + cbn [lookup]. rewrite IH.
      destruct (k0 =? k')%string eqn:E1; [| reflexivity].
      apply String.eqb_eq in E1. subst k'.
      destruct (k0 =? k)%string eqn:E0; [| reflexivity].
      apply String.eqb_eq in E0. subst k0. now rewrite String.eqb_refl in E.
Qed.

(** X26.  [tripit_update_trip] addresses the trip by [trip_id] and sends the
    rest of the arguments as the update: the update the client receives
    never has a [trip_id], and has every other argument with its value. *)
Theorem update_trip_splits_arguments
    (rt : Runtime) (client : ClientApi) (props : list (string * Value)) :
  exists updates,
    handleToolCall rt client "tripit_update_trip" (VObj props)
    = tryCatch
        (result <- updateTrip client (getPropOpt (VObj props) "trip_id") (VObj updates) ;;
         ret (textResult (stringifyIndented rt result)))
        handleTripItError
    /\ lookup "trip_id" updates = None
    /\ forall k, k <> "trip_id" -> lookup k updates = lookup k props.
Proof.
  exists (without "trip_id" props). split; [reflexivity |].
  split.
  - rewrite lookup_without. reflexivity.
  - intros k Hk. rewrite lookup_without. apply String.eqb_neq in Hk. now rewrite Hk.
Qed.

(** ** Recovery *)

Lemma attempts_recovers (rt : Runtime) (client : TripItClient) (world : World)
    (m : HttpMethod) (path : string) (payload : Value)
    (i remaining attempt : nat) (lastError : option TripItError) (st : State)
    (status : Z) (text : string) (v : Value) :
  (i < remaining)%nat ->
  (forall j, (attempt <= j < attempt + i)%nat -> retryable (outcome world j) = true) ->
  outcome world (attempt + i) = Response status text (inr v) ->
  ok status = true ->
  let r := attempts rt client world m path payload remaining attempt lastError st in
  result r = ret v
  /\ fetchCount (trace r) = S i
  /\ backoffs (trace r) = map backoffDelay (seq attempt i).
Proof.
  revert remaining attempt lastError st.
  induction i as [| i IH]; intros remaining attempt lastError st Hi Hretry Ho Hok;
    (destruct remaining as [| remaining]; [lia |]); cbv zeta.
  - rewrite Nat.add_0_r in Ho.
    assert (verdict rt attempt path (outcome world attempt) = Done (ret v)) as Hv.
    { rewrite Ho. unfold verdict, tryBlock.
      destruct (ok_not_retried status Hok) as (-> & -> & ->). now rewrite Hok. }
    destruct (attempts_done rt client world m path payload remaining attempt
                lastError st _ Hv) as (Hr & Hc & Hb & _).
    auto.
  - pose proof (verdict_retryable rt path attempt _ (Hretry attempt ltac:(lia))) as Hv.
    destruct (attempts_retry rt client world m path payload remaining attempt
                lastError st _ _ Hv) as (st' & Hr & Hc & Hb & _).
    destruct (IH remaining (S attempt)
                (Some (retryError rt (outcome world attempt))) st')
      as (Hr' & Hc' & Hb'); [lia | intros j Hj; apply Hretry; lia | | exact Hok |].
    { replace (S attempt + i)%nat with (attempt + S i)%nat by lia. exact Ho. }
    cbv zeta in Hr, Hc, Hb. rewrite Hr, Hc, Hb, Hr', Hc', Hb'. auto.
Qed.

(** X27.  Recovery.  If the attempts before attempt [i] (of at most
    [MAX_RETRIES]) all end in a retryable classification and attempt [i]
    receives a success response with a JSON body, the call returns that
    body, having made [i + 1] attempts and waited [i] times: 1000 ms, then
    2000 ms. *)
Theorem request_recovers
    (rt : Runtime) (client : TripItClient) (world : World)
    (m : HttpMethod) (path : string) (payload : Value) (st : State)
    (i : nat) (status : Z) (text : string) (v : Value) :
  (i < MAX_RETRIES)%nat ->
  (forall j, (j < i)%nat -> retryable (outcome world j) = true) ->
  outcome world i = Response status text (inr v) ->
  ok status = true ->
  let r := request rt client world m path payload st in
  result r = ret v
  /\ fetchCount (trace r) = S i
  /\ backoffs (trace r) = map (fun j => BASE_DELAY_MS * 2 ^ Z.of_nat j) (seq 0 i).
Proof.
  intros Hi Hretry Ho Hok. unfold request.
  apply (attempts_recovers rt client world m path payload i MAX_RETRIES 0 None st
           status text v); auto.
  intros j Hj. apply Hretry. lia.
Qed.

Lemma request_recovers_witness :
  let r := request sampleRuntime sampleClient
             (answering [Response 500 "" (inl ""); Response 429 "" (inl "")]
                (Response 200 "{}" (inr (VObj [("Trip", VArr [])]))))
             GET "/list/trip" VUndefined startState in
  result r = ret (VObj [("Trip", VArr [])])
  /\ fetchCount (trace r) = 3%nat
  /\ backoffs (trace r) = [1000; 2000].
Proof.
  cbv zeta.
  apply (request_recovers sampleRuntime sampleClient
           (answering [Response 500 "" (inl ""); Response 429 "" (inl "")]
              (Response 200 "{}" (inr (VObj [("Trip", VArr [])]))))
           GET "/list/trip" VUndefined startState 2 200 "{}" (VObj [("Trip", VArr [])]));
    [ unfold MAX_RETRIES; lia
    | intros j Hj; destruct j as [| [| j]]; [reflexivity | reflexivity | lia]
    | reflexivity | reflexivity ].
Defined.
